(** * anerd: Asynchronous Network Exchange Randomness Daemon

    A shallow embedding of [anerd.c] and the properties of its two loops.

    - C [int] and [uint64_t] values are [Z]; wrap-around is written out.
    - The block buffer [data] is a [list Z] of unsigned byte values; a store
      through an index outside the block is recorded, not dropped.
    - The [FILE *] on the random device is a record of the bytes still in the
      stdio buffer and the bytes delivered to the device.
    - Everything the operating system decides (the datagram that arrives, the
      clock, whether a write, a read or a send succeeds) is an input of the
      iteration; everything the process does to the outside is an event of
      its trace, in program order. *)

From Stdlib Require Import ZArith.
From stdpp Require Import list strings.

Local Open Scope Z_scope.

(** ** Machine integers *)

Definition wrap64 (x : Z) : Z := x mod 2 ^ 64.
Definition wrap32 (x : Z) : Z := x mod 2 ^ 32.

(** [int] arithmetic, two's complement on 32 bits. *)
Definition wrap_int (x : Z) : Z := (x + 2 ^ 31) mod 2 ^ 32 - 2 ^ 31.

(** [(unsigned char)c] *)
Definition to_uchar (c : Z) : Z := c mod 256.

(** ** The clock *)

(** [struct timeval] as filled by [gettimeofday], and the value of
    [time(NULL)] read in the same call of [anerd_salt]. *)
Record clock := Clock {
  tv_sec : Z;
  tv_usec : Z;
  time_null : Z
}.

Definition clock_valid (c : clock) : Prop :=
  0 <= tv_sec c /\ 0 <= tv_usec c < 1000000.

(** The word [anerd_salt] builds from the reading, line 53:
    [this_usec = 1000000 * tv.tv_usec + tv.tv_usec], stored in a
    [uint64_t]. *)
Definition this_usec (c : clock) : Z :=
  wrap64 (1000000 * tv_usec c + tv_usec c).

Section Salt.

(** [libc_rand seed] is the value of the first [rand()] after [srand(seed)].
    The generator belongs to the C library; the program only relies on its
    being a function of the seed. *)
Variable libc_rand : Z -> Z.

(** [anerd_salt], lines 47-61. *)
Definition anerd_salt (salt : Z) (c : clock) : Z :=
  let salt :=
    if salt =? 0 then wrap64 (libc_rand (wrap32 (time_null c))) else salt in
  (* Let it wrap *)
  Z.lxor salt (this_usec c).

(** The wall-clock time in microseconds, as the contract of the salt
    generator words it: seconds and microseconds of one reading. *)
Definition usec_reading (c : clock) : Z := 1000000 * tv_sec c + tv_usec c.

(** The contract in the spec's words, to compare [anerd_salt] with. *)
Definition next_salt_spec (previous : Z) (c : clock) : Z :=
  if previous =? 0 then wrap64 (libc_rand (wrap32 (time_null c)))
  else Z.lxor previous (wrap64 (usec_reading c)).

End Salt.

(** [anerd_crc], lines 66-73: the loop adds [(unsigned char)data[i]] for
    [i] from [0] to [len - 1]. *)
Definition anerd_crc (data : list Z) (len : Z) : Z :=
  foldl (fun crc b => wrap_int (crc + to_uchar b)) 0 (take (Z.to_nat len) data).

(** The eight bytes [fwrite(&salt, sizeof(uint64_t), 1, fp)] takes from the
    object [salt], least significant byte first. *)
Definition salt_bytes (salt : Z) : list Z :=
  map (fun k => Z.land (Z.shiftr salt (8 * k)) 255) [0; 1; 2; 3; 4; 5; 6; 7].

(** The [uint64_t] that eight bytes denote when read least significant
    byte first, as a reader of the device gets the salt back. *)
Definition le_decode (bytes : list Z) : Z :=
  foldr (fun b acc => b + 256 * acc) 0 bytes.

(** ** Addresses, the device stream, events *)

Record sockaddr_in := SockAddr {
  sin_addr : Z;
  sin_port : Z
}.

(** [htons(port)]: the [int] is converted to the 16 bits of [sin_port].
    [sin_port] holds here the port number those 16 bits denote, the one
    [ntohs] gives back. *)
Definition htons (port : Z) : Z := port mod 65536.

Definition INADDR_ANY : Z := 0.
Definition INADDR_BROADCAST : Z := 4294967295.

(** The stream opened with [fopen(device, "a+")]: the bytes written and not
    yet flushed, and the bytes the device has received through it. *)
Record FILE := File {
  f_pending : list Z;
  f_device : list Z
}.

(** What the process does to the outside, one event per call. *)
Inductive event :=
| Perror (msg : string)
| Syslog (msg : string) (nbytes crc : Z) (peer : sockaddr_in)
| Bind (fd : Z) (local : sockaddr_in)
| Fwrite (bytes : list Z)
| Fflush
| Fread (nbytes : Z)
| Sendto (fd : Z) (payload : list Z) (dest : sockaddr_in)
| Close (fd : Z).

(** ** The locals of a loop *)

(** [sock], [data], [salt], [fp] and the one [struct sockaddr_in] that
    [recvfrom] fills ([client_addr] in the server, [server_addr] in the
    client). [stray] lists the offsets of the stores that fell outside the
    block [data] points to. *)
Record proc := Proc {
  sock : Z;
  data : list Z;
  stray : list Z;
  salt : Z;
  fp : FILE;
  addr : sockaddr_in
}.

Definition set_data (d : list Z) (p : proc) : proc :=
  Proc (sock p) d (stray p) (salt p) (fp p) (addr p).
Definition set_salt (s : Z) (p : proc) : proc :=
  Proc (sock p) (data p) (stray p) s (fp p) (addr p).
Definition set_fp (f : FILE) (p : proc) : proc :=
  Proc (sock p) (data p) (stray p) (salt p) f (addr p).
Definition set_addr (a : sockaddr_in) (p : proc) : proc :=
  Proc (sock p) (data p) (stray p) (salt p) (fp p) a.

(** ** A state and trace monad for the loop bodies *)

Definition M (A : Type) : Type := proc -> A * proc * list event.

Definition ret {A} (a : A) : M A := fun p => (a, p, []).

Definition bind {A B} (m : M A) (k : A -> M B) : M B := fun p =>
  match m p with
  | (a, p1, t1) =>
      match k a p1 with
      | (b, p2, t2) => (b, p2, t1 ++ t2)
      end
  end.

Declare Scope anerd_scope.
Delimit Scope anerd_scope with anerd.
Notation "'do' x <- m 'in' k" := (bind m (fun x => k))
  (at level 10, x name, m at level 100, k at level 200,
   format "'[v' 'do'  x  <-  m  'in' '/' k ']'") : anerd_scope.
Notation "m >> k" := (bind m (fun _ => k))
  (at level 65, right associativity) : anerd_scope.
Local Open Scope anerd_scope.

Definition emit (e : event) : M unit := fun p => (tt, p, [e]).

Definition state_of {A} (r : A * proc * list event) : proc := r.1.2.
Definition trace_of {A} (r : A * proc * list event) : list event := r.2.

(** ** The calls the loops make *)

(** A datagram waiting on the socket. *)
Record datagram := Datagram {
  dg_payload : list Z;
  dg_from : sockaddr_in
}.

(** The bytes [recvfrom] hands over when asked for at most [size]: a longer
    datagram is cut at [size]. *)
Definition received (size : Z) (dg : datagram) : list Z :=
  take (Z.to_nat size) (dg_payload dg).

(** [recvfrom(sock, data, size, 0, &addr, &addr_len)], on the path where a
    datagram is delivered: the received bytes are copied to the start of
    [data], the sender's address is stored in [addr], the number of bytes
    copied is returned. *)
Definition recvfrom (size : Z) (dg : datagram) : M Z := fun p =>
  let got := received size dg in
  (Z.of_nat (length got),
   set_addr (dg_from dg) (set_data (got ++ drop (length got) (data p)) p),
   []).

(** Whether offset [i] lies in the block [d]. *)
Definition in_block (i : Z) (d : list Z) : bool :=
  (0 <=? i) && (i <? Z.of_nat (length d)).

(** [data[i] = v]. Inside the block the byte is replaced; outside it the
    store lands beyond what [calloc] returned: the block is as it was and
    the offset is kept in [stray]. *)
Definition store (i v : Z) : M unit := fun p =>
  (tt,
   Proc (sock p)
        (if in_block i (data p) then <[Z.to_nat i := v]> (data p) else data p)
        (if in_block i (data p) then stray p else stray p ++ [i])
        (salt p) (fp p) (addr p),
   []).

Definition perror (msg : string) : M unit := emit (Perror msg).

(** [syslog(LOG_INFO, msg, n, anerd_crc(data, n), inet_ntoa(addr.sin_addr),
    ntohs(addr.sin_port))] *)
Definition syslog (msg : string) (n : Z) : M unit := fun p =>
  emit (Syslog msg n (anerd_crc (data p) n) (addr p)) p.

(** [fwrite(data, n, 1, fp)]: the first [n] bytes of [data] go to the
    stream's buffer. *)
Definition fwrite_data (n : Z) : M Z := fun p =>
  let bytes := take (Z.to_nat n) (data p) in
  (1, set_fp (File (f_pending (fp p) ++ bytes) (f_device (fp p))) p,
   [Fwrite bytes]).

(** [fwrite(&salt, sizeof(uint64_t), 1, fp)] *)
Definition fwrite_salt : M Z := fun p =>
  let bytes := salt_bytes (salt p) in
  (1, set_fp (File (f_pending (fp p) ++ bytes) (f_device (fp p))) p,
   [Fwrite bytes]).

(** [fflush(fp)]: the buffered bytes are handed to the device. [ok] tells
    whether the device took them; when it did not they are lost and the
    call returns [EOF]. *)
Definition fflush (ok : bool) : M Z := fun p =>
  ((if ok then 0 else -1),
   set_fp (File [] (if ok then f_device (fp p) ++ f_pending (fp p)
                    else f_device (fp p))) p,
   [Fflush]).

(** Whether [fread(data, n, sizeof(char), fp)] gets its one item of [n]
    bytes when the device yields [avail]: all [n] bytes must arrive. *)
Definition fread_ok (n : Z) (avail : list Z) : bool :=
  (0 <? n) && (n <=? Z.of_nat (length avail)).

(** [fread(data, n, sizeof(char), fp)]: the bytes that arrive are copied to
    the start of [data]; the result is the number of items read, 1 or 0. *)
Definition fread (n : Z) (avail : list Z) : M Z := fun p =>
  let got := take (Z.to_nat n) avail in
  ((if fread_ok n avail then 1 else 0),
   set_data (got ++ drop (length got) (data p)) p,
   [Fread n]).

(** [sendto(sock, data, n, 0, &addr, sizeof(struct sockaddr))] *)
Definition sendto (n : Z) (ok : bool) : M Z := fun p =>
  ((if ok then n else -1), p,
   [Sendto (sock p) (take (Z.to_nat n) (data p)) (addr p)]).

(** ** What the environment supplies *)

(** One turn of the server's [while (1)]: the datagram [recvfrom] returns,
    the clock [anerd_salt] reads, whether the device takes the flush, what
    the device yields to [fread], whether [sendto] succeeds. *)
Record arrival := Arrival {
  a_dgram : datagram;
  a_clock : clock;
  a_write_ok : bool;
  a_draw : list Z;
  a_send_ok : bool
}.

(** One turn of the client's inner [while (poll(...) > 0)]. *)
Record reply := Reply {
  r_dgram : datagram;
  r_clock : clock;
  r_write_ok : bool
}.

(** One turn of the client's outer [while (interval > 0)]: what the device
    yields to [fread], whether [sendto] succeeds, and the replies that made
    [poll] return a positive count before it returned zero or less. *)
Record round := Round {
  rd_draw : list Z;
  rd_send_ok : bool;
  rd_replies : list reply
}.

(** Start-up: the results of [socket], [fopen], [calloc], [bind] (server)
    and [setsockopt] (client), and what the stack holds where a local is
    declared without an initialiser. *)
Record startup := Startup {
  su_socket : Z;
  su_fopen : bool;
  su_calloc : bool;
  su_bind : bool;
  su_setsockopt : bool;
  su_stack_salt : Z;
  su_stack_addr : sockaddr_in
}.

(** A function either left through [exit(status)] or stands in its loop
    with locals [p] after the turns it was given; [tr] is its trace. *)
Inductive outcome :=
| Exited (status : Z) (tr : list event)
| Looping (p : proc) (tr : list event)
| Returned (status : Z) (tr : list event).

Definition outcome_trace (o : outcome) : list event :=
  match o with Exited _ tr | Looping _ tr | Returned _ tr => tr end.

Section Daemon.

Variable libc_rand : Z -> Z.

(** [salt = anerd_salt(salt)] *)
Definition mix_salt (c : clock) : M unit := fun p =>
  (tt, set_salt (anerd_salt libc_rand (salt p) c) p, []).

(** *** [anerd_server], lines 82-140 *)

(** Lines 116-133, the body of [while (1)]. *)
Definition server_iteration (size : Z) (a : arrival) : M unit :=
  do bytes_read <- recvfrom size (a_dgram a) in
  store bytes_read 0 >>
  syslog "Server recv bcast" bytes_read >>
  (* Mix incoming entropy + salt into pool *)
  mix_salt (a_clock a) >>
  fwrite_data bytes_read >>
  fwrite_salt >>
  fflush (a_write_ok a) >>
  (* Obtain some entropy for transmission *)
  do got <- fread bytes_read (a_draw a) in
  if 0 <? got
  then sendto bytes_read (a_send_ok a) >>
       syslog "Server sent direct" bytes_read
  else perror "fread".

Fixpoint server_loop (size : Z) (arrivals : list arrival) : M unit :=
  match arrivals with
  | [] => ret tt
  | a :: rest => server_iteration size a >> server_loop size rest
  end.

(** Lines 90-113. *)
Definition server_setup (size port : Z) (s : startup) : outcome :=
  if su_socket s =? -1 then Exited 1 [Perror "Socket"]
  else if negb (su_fopen s) then Exited 1 [Perror "fopen"]
  else if negb (su_calloc s) then Exited 1 [Perror "calloc"]
  else if negb (su_bind s)
  then Exited 1 [Bind (su_socket s) (SockAddr INADDR_ANY (htons port));
                 Perror "bind"]
  else Looping
         (Proc (su_socket s) (replicate (Z.to_nat size) 0) []
               (su_stack_salt s) (File [] []) (su_stack_addr s))
         [Bind (su_socket s) (SockAddr INADDR_ANY (htons port))].

Definition anerd_server (size port : Z) (s : startup)
    (arrivals : list arrival) : outcome :=
  match server_setup size port s with
  | Looping p tr =>
      let r := server_loop size arrivals p in
      Looping (state_of r) (tr ++ trace_of r)
  | o => o
  end.

(** *** [anerd_client], lines 148-211 *)

(** Lines 195-203, the body of [while (poll(&ufds, 1, interval*1000) > 0)]. *)
Definition client_reply (size : Z) (r : reply) : M unit :=
  do bytes_read <- recvfrom size (r_dgram r) in
  store bytes_read 0 >>
  syslog "Client recv direct" bytes_read >>
  (* Mix incoming entropy + salt into pool *)
  mix_salt (r_clock r) >>
  fwrite_data size >>
  fwrite_salt >>
  fflush (r_write_ok r) >>
  ret tt.

Fixpoint client_poll (size : Z) (replies : list reply) : M unit :=
  match replies with
  | [] => ret tt
  | r :: rest => client_reply size r >> client_poll size rest
  end.

(** Lines 186-204, the body of [while (interval > 0)]. *)
Definition client_round (size : Z) (rd : round) : M unit :=
  (* Donate some entropy to the local networks *)
  do got <- fread size (rd_draw rd) in
  (if 0 <? got
   then syslog "Client sent bcast" size >>
        sendto size (rd_send_ok rd) >>
        ret tt
   else perror "fread") >>
  (* Poll for responses *)
  client_poll size (rd_replies rd).

Fixpoint client_loop (size : Z) (rounds : list round) : M unit :=
  match rounds with
  | [] => ret tt
  | rd :: rest => client_round size rd >> client_loop size rest
  end.

(** Lines 156-182. A failing [socket] or [setsockopt] is reported and the
    function goes on; [sock] then holds what [socket] returned. *)
Definition client_setup (size port : Z) (s : startup) : outcome :=
  if negb (su_calloc s) then Exited 1 [Perror "calloc"]
  else
    let t1 := if su_socket s =? -1 then [Perror "socket"] else [] in
    let t2 := if negb (su_setsockopt s)
              then [Perror "setsockopt (SO_BROADCAST)"] else [] in
    if negb (su_fopen s)
    then Exited 1 (t1 ++ t2 ++ [Perror "fopen"; Close (su_socket s)])
    else Looping
           (Proc (su_socket s) (replicate (Z.to_nat size) 0) []
                 0 (File [] []) (SockAddr INADDR_BROADCAST (htons port)))
           (t1 ++ t2).

Definition anerd_client (size port interval : Z) (s : startup)
    (rounds : list round) : outcome :=
  match client_setup size port s with
  | Looping p tr =>
      if 0 <? interval
      then let r := client_loop size rounds p in
           Looping (state_of r) (tr ++ trace_of r)
      else Returned 0 (tr ++ [Close (sock p)])
  | o => o
  end.

End Daemon.

(** ** [main], lines 213-240 *)

(** The four locals the argument loop sets. [device] is a pointer into
    [argv]; [None] is the null pointer. *)
Record config := Config {
  cf_device : option string;
  cf_size : Z;
  cf_port : Z;
  cf_interval : Z
}.

Definition DEFAULT_SIZE : Z := 64.
Definition DEFAULT_DEVICE : string := "/dev/urandom".
Definition DEFAULT_PORT : Z := 26373.
Definition DEFAULT_INTERVAL : Z := 60.

Definition default_config : config :=
  Config (Some DEFAULT_DEVICE) DEFAULT_SIZE DEFAULT_PORT DEFAULT_INTERVAL.

(** [strncmp(arg, flag, 2) == 0] for a flag of two characters: [arg]
    starts with them. *)
Definition is_flag (flag arg : string) : bool := String.prefix flag arg.

Section Main.

(** [atoi] belongs to the C library. *)
Variable atoi : string -> Z.
Variable libc_rand : Z -> Z.

(** The loop [for (i=0; i<argc; i++)] over [argv[i], ..., argv[argc-1]],
    lines 220-230. A flag takes [argv[++i]] as its value and the loop's
    [i++] steps over it. After the last argument [argv[++i]] is
    [argv[argc]], the null pointer: [-d] stores it, the other three hand
    it to [atoi], for which there is no result ([None]). *)
Fixpoint parse_args (argv : list string) (c : config) : option config :=
  match argv with
  | [] => Some c
  | a :: rest =>
      if is_flag "-d" a then
        match rest with
        | [] => Some (Config None (cf_size c) (cf_port c) (cf_interval c))
        | v :: rest' =>
            parse_args rest'
              (Config (Some v) (cf_size c) (cf_port c) (cf_interval c))
        end
      else if is_flag "-i" a then
        match rest with
        | [] => None
        | v :: rest' =>
            parse_args rest'
              (Config (cf_device c) (cf_size c) (cf_port c) (atoi v))
        end
      else if is_flag "-p" a then
        match rest with
        | [] => None
        | v :: rest' =>
            parse_args rest'
              (Config (cf_device c) (cf_size c) (atoi v) (cf_interval c))
        end
      else if is_flag "-s" a then
        match rest with
        | [] => None
        | v :: rest' =>
            parse_args rest'
              (Config (cf_device c) (atoi v) (cf_port c) (cf_interval c))
        end
      else parse_args rest c
  end.

(** [main]: the arguments are read over the defaults, then the process
    forks; the child ([fork() == 0]) is the client, any other result of
    [fork] leaves this process as the server. *)
Definition main (argv : list string) (fork_result : Z) (s : startup)
    (arrivals : list arrival) (rounds : list round) : option outcome :=
  match parse_args argv default_config with
  | None => None
  | Some c =>
      Some (if fork_result =? 0
            then anerd_client libc_rand (cf_size c) (cf_port c)
                   (cf_interval c) s rounds
            else anerd_server libc_rand (cf_size c) (cf_port c) s arrivals)
  end.

End Main.

(** Whether an argument is one of the four flags. *)
Definition any_flag (a : string) : bool :=
  is_flag "-d" a || is_flag "-i" a || is_flag "-p" a || is_flag "-s" a.

(** Whether the argument loop, started at the head of [argv], ends on the
    last argument and not on the value a flag is still waiting for. *)
Fixpoint complete (argv : list string) : bool :=
  match argv with
  | [] => true
  | a :: rest =>
      if any_flag a
      then match rest with
           | [] => false
           | _ :: rest' => complete rest'
           end
      else complete rest
  end.

(** The plain sum of the bytes of [l] as unsigned characters. *)
Fixpoint byte_sum (l : list Z) : Z :=
  match l with
  | [] => 0
  | b :: rest => to_uchar b + byte_sum rest
  end.

(** ** Reading traces *)

Definition is_sendto (e : event) : bool :=
  match e with Sendto _ _ _ => true | _ => false end.
Definition is_perror (e : event) : bool :=
  match e with Perror _ => true | _ => false end.
Definition is_fread (e : event) : bool :=
  match e with Fread _ => true | _ => false end.
Definition is_pool (e : event) : bool :=
  match e with Fwrite _ | Fflush | Fread _ => true | _ => false end.

Definition sends (tr : list event) : list event := filter is_sendto tr.
Definition reports (tr : list event) : list event := filter is_perror tr.
Definition pool_calls (tr : list event) : list event := filter is_pool tr.
Definition draws (tr : list event) : list event := filter is_fread tr.

(** The locals are in order for a block of [size] bytes: [data] has that
    many, and the stream holds nothing unflushed. *)
Definition proc_ok (size : Z) (p : proc) : Prop :=
  length (data p) = Z.to_nat size /\ f_pending (fp p) = [].

(** ** Concrete runs *)

(** A stand-in for the C library's generator, used only to run the model. *)
Definition lcg_rand (seed : Z) : Z := (1103515245 * seed + 12345) mod 2 ^ 31.

(** A stand-in for [atoi] on strings of decimal digits, used only to run
    the model: it reads digits up to the first other character. *)
Definition digit_of (a : Ascii.ascii) : option Z :=
  let n := Z.of_N (Ascii.N_of_ascii a) in
  if (48 <=? n) && (n <=? 57) then Some (n - 48) else None.

Fixpoint atoi_from (acc : Z) (s : string) : Z :=
  match s with
  | EmptyString => acc
  | String a rest =>
      match digit_of a with
      | Some d => atoi_from (10 * acc + d) rest
      | None => acc
      end
  end.

Definition dec_atoi (s : string) : Z := atoi_from 0 s.

(** 203.0.113.5:40000 *)
Definition peer_203_0_113_5 : sockaddr_in := SockAddr 3405803781 40000.

Definition outcome_proc (o : outcome) : option proc :=
  match o with Looping p _ => Some p | _ => None end.

(** Every start-up call succeeds; descriptor 3; the stack holds zeroes. *)
Definition startup_ok : startup :=
  Startup 3 true true true true 0 (SockAddr 0 0).

(** Every start-up call succeeds; the stack slot of [salt] holds 1. *)
Definition startup_dirty_stack : startup :=
  Startup 3 true true true true 1 (SockAddr 0 0).

(** [socket] fails (and [setsockopt] on the missing descriptor with it);
    [calloc] and [fopen] succeed. *)
Definition startup_no_socket : startup :=
  Startup (-1) true true true false 0 (SockAddr 0 0).

(** Bytes 0, 1, ..., 63 and 100, 101, ..., 163. *)
Definition block64 : list Z := map Z.of_nat (seq 0 64).
Definition pool64 : list Z := map Z.of_nat (seq 100 64).

Definition quarter_past : clock := Clock 1351598400 250000 1351598400.

(** A 64-byte datagram from 203.0.113.5:40000 met by a willing device and
    network, and the locals it meets. *)
Definition arrival64 : arrival :=
  Arrival (Datagram block64 peer_203_0_113_5) quarter_past true pool64 true.
Definition reply64 : reply :=
  Reply (Datagram block64 peer_203_0_113_5) quarter_past true.
Definition locals64 : proc :=
  Proc 3 (replicate 64 0) [] 7 (File [] []) (SockAddr 0 0).

(** The reply as it would be with the device taking the write. *)
Definition accepted (r : reply) : reply := Reply (r_dgram r) (r_clock r) true.

(** Two sets of locals that differ at most in the stream. *)
Definition same_but_fp (p q : proc) : Prop :=
  sock p = sock q /\ data p = data q /\ stray p = stray q /\
  salt p = salt q /\ addr p = addr q.

(** * Properties *)

(** Runs a loop body: the calls and the projections of the locals are
    unfolded together, so that no intermediate state is copied. *)
Ltac run :=
  lazy beta iota zeta delta
    [bind ret recvfrom store syslog perror emit mix_salt
     fwrite_data fwrite_salt fflush fread sendto trace_of state_of
     set_data set_fp set_salt set_addr
     fst snd sock data stray salt fp addr f_pending f_device app
     Z.ltb Z.compare].

(** ** The salt generator *)

Lemma wrap64_small x : 0 <= x < 2 ^ 64 -> wrap64 x = x.
Proof. intros H. unfold wrap64. by apply Z.mod_small. Qed.

Lemma this_usec_valid c :
  clock_valid c -> this_usec c = 1000001 * tv_usec c.
Proof.
  intros [_ Hu]. unfold this_usec. rewrite wrap64_small; lia.
Qed.

Lemma this_usec_range c : 0 <= this_usec c < 2 ^ 64.
Proof. unfold this_usec, wrap64. apply Z.mod_pos_bound. lia. Qed.

Lemma lxor_nonzero_r a b : b <> 0 -> Z.lxor a b <> a.
Proof.
  intros Hb E. apply Hb.
  assert (E' : Z.lxor a (Z.lxor a b) = Z.lxor a a) by (by rewrite E).
  by rewrite <- Z.lxor_assoc, Z.lxor_nilpotent, Z.lxor_0_l in E'.
Qed.

(** XOR stays within the width of its operands. *)
Lemma lxor_range n a b :
  0 <= a < 2 ^ n -> 0 <= b < 2 ^ n -> 0 <= Z.lxor a b < 2 ^ n.
Proof.
  intros Ha Hb.
  assert (Hnn : 0 <= Z.lxor a b) by (apply Z.lxor_nonneg; lia).
  split; [exact Hnn|].
  destruct (Z.eq_dec (Z.lxor a b) 0) as [E|Hne]; [rewrite E; lia|].
  assert (Hn : 0 < n).
  { destruct (Z.ltb_spec 0 n) as [|Hle]; [done|]. exfalso. apply Hne.
    assert (2 ^ n <= 1).
    { destruct (Z.eq_dec n 0) as [->|]; [done|].
      rewrite Z.pow_neg_r; lia. }
    replace a with 0 by lia. replace b with 0 by lia. reflexivity. }
  apply Z.log2_lt_pow2; [lia|].
  pose proof (Z.log2_lxor a b ltac:(lia) ltac:(lia)) as Hl.
  assert (Z.log2 a < n).
  { destruct (Z.eq_dec a 0) as [->|]; [done|]. apply Z.log2_lt_pow2; lia. }
  assert (Z.log2 b < n).
  { destruct (Z.eq_dec b 0) as [->|]; [done|]. apply Z.log2_lt_pow2; lia. }
  lia.
Qed.

Lemma lxor_cancel_l a b c : Z.lxor a b = Z.lxor a c -> b = c.
Proof.
  intros H.
  assert (E : Z.lxor a (Z.lxor a b) = Z.lxor a (Z.lxor a c)) by (by rewrite H).
  by rewrite <- !Z.lxor_assoc, Z.lxor_nilpotent, !Z.lxor_0_l in E.
Qed.

Section SaltFacts.

Variable libc_rand : Z -> Z.

Lemma anerd_salt_nonzero s c :
  s <> 0 -> anerd_salt libc_rand s c = Z.lxor s (this_usec c).
Proof.
  intros Hs. unfold anerd_salt.
  destruct (Z.eqb_spec s 0) as [E|_]; [contradiction | reflexivity].
Qed.

Lemma anerd_salt_zero c :
  anerd_salt libc_rand 0 c =
  Z.lxor (wrap64 (libc_rand (wrap32 (time_null c)))) (this_usec c).
Proof. reflexivity. Qed.

(** After re-seeding the generator's value is mixed with the clock word
    like any other: the result is the generator's value only when that word
    is zero. *)
Lemma anerd_salt_zero_mixed c :
  this_usec c <> 0 ->
  anerd_salt libc_rand 0 c <> next_salt_spec libc_rand 0 c.
Proof. intros H. rewrite anerd_salt_zero. by apply lxor_nonzero_r. Qed.

(** A 64-bit salt stays a 64-bit salt. *)
Lemma anerd_salt_range s c :
  0 <= s < 2 ^ 64 -> 0 <= anerd_salt libc_rand s c < 2 ^ 64.
Proof.
  intros Hs. unfold anerd_salt. apply lxor_range; [|apply this_usec_range].
  destruct (s =? 0); [|exact Hs].
  unfold wrap64. apply Z.mod_pos_bound. lia.
Qed.

(** On a running salt the seconds of the clock play no part: the result is
    decided by the microsecond field alone. *)
Lemma anerd_salt_eq_iff s c1 c2 :
  s <> 0 -> clock_valid c1 -> clock_valid c2 ->
  anerd_salt libc_rand s c1 = anerd_salt libc_rand s c2 <->
  tv_usec c1 = tv_usec c2.
Proof.
  intros Hs H1 H2. rewrite !anerd_salt_nonzero by done.
  rewrite !this_usec_valid by done. split.
  - intros E. apply lxor_cancel_l in E. lia.
  - by intros ->.
Qed.

(** The contract as worded does separate any two readings of the clock. *)
Lemma next_salt_spec_differs s c1 c2 :
  s <> 0 ->
  0 <= usec_reading c1 < 2 ^ 64 -> 0 <= usec_reading c2 < 2 ^ 64 ->
  usec_reading c1 <> usec_reading c2 ->
  next_salt_spec libc_rand s c1 <> next_salt_spec libc_rand s c2.
Proof.
  intros Hs H1 H2 Hne E. unfold next_salt_spec in E.
  destruct (Z.eqb_spec s 0) as [?|_]; [done|].
  apply lxor_cancel_l in E. rewrite !wrap64_small in E by done. done.
Qed.

(** C5 (as amended). On a 64-bit previous salt, [anerd_salt] returns the
    XOR of a starting value and the clock word [this_usec]: the starting
    value is the first value of the generator seeded with [time(NULL)] when
    the previous salt is zero, and the previous salt otherwise. The result
    is again a 64-bit value, and XORing it with the clock word gives the
    starting value back. *)
Theorem C5_salt_is_start_xor_clock_word previous c :
  0 <= previous < 2 ^ 64 ->
  let start :=
    if previous =? 0
    then wrap64 (libc_rand (wrap32 (time_null c)))
    else previous in
  anerd_salt libc_rand previous c = Z.lxor start (this_usec c) /\
  0 <= anerd_salt libc_rand previous c < 2 ^ 64 /\
  Z.lxor (anerd_salt libc_rand previous c) (this_usec c) = start.
Proof.
  intros Hp start.
  assert (Hs : 0 <= start < 2 ^ 64).
  { subst start. destruct (previous =? 0); [|exact Hp].
    unfold wrap64. apply Z.mod_pos_bound. lia. }
  assert (E : anerd_salt libc_rand previous c = Z.lxor start (this_usec c))
    by reflexivity.
  rewrite E. split; [reflexivity|]. split.
  - apply lxor_range; [exact Hs | apply this_usec_range].
  - by rewrite Z.lxor_assoc, Z.lxor_nilpotent, Z.lxor_0_r.
Qed.

(** The clock word is built from the microsecond field twice: at 2 s + 1 us
    a running salt of 5 becomes 5 XOR 1000001, which is neither 5 XOR the
    reading in microseconds (2000001) nor 5 XOR the microsecond field. *)
Lemma anerd_salt_word_at_2s_1us :
  let c := Clock 2 1 2 in
  anerd_salt libc_rand 5 c = Z.lxor 5 1000001 /\
  anerd_salt libc_rand 5 c <> Z.lxor 5 (usec_reading c) /\
  anerd_salt libc_rand 5 c <> Z.lxor 5 (tv_usec c) /\
  anerd_salt libc_rand 5 c <> next_salt_spec libc_rand 5 c.
Proof. vm_compute. repeat split; discriminate. Qed.

(** C6 (code defect). Two calls with the same running salt 5, made one
    second apart (10 s + 500 us and 11 s + 500 us), return the same value:
    the seconds never enter the word that is mixed in. *)
Theorem C6_same_salt_one_second_apart :
  let c1 := Clock 10 500 10 in
  let c2 := Clock 11 500 11 in
  usec_reading c1 <> usec_reading c2 /\
  anerd_salt libc_rand 5 c1 = anerd_salt libc_rand 5 c2 /\
  next_salt_spec libc_rand 5 c1 <> next_salt_spec libc_rand 5 c2.
Proof. vm_compute. repeat split; discriminate. Qed.

End SaltFacts.

(** C5 (as stated, refuted). At 2 s + 1 us, with the stand-in generator.
    From a zero salt the generator seeded with 2 gives 59559187, and
    [anerd_salt] returns 59559187 XOR 1000001 = 58953554, not the
    generator's value. From a salt of 5 it returns 5 XOR 1000001 = 1000004,
    not 5 XOR the reading of 2000001 us. *)
Lemma C5_salt_departs_from_contract :
  let c := Clock 2 1 2 in
  next_salt_spec lcg_rand 0 c = 59559187 /\
  anerd_salt lcg_rand 0 c = 58953554 /\
  anerd_salt lcg_rand 0 c <> next_salt_spec lcg_rand 0 c /\
  next_salt_spec lcg_rand 5 c = Z.lxor 5 2000001 /\
  anerd_salt lcg_rand 5 c = 1000004 /\
  anerd_salt lcg_rand 5 c <> next_salt_spec lcg_rand 5 c.
Proof. vm_compute. repeat split; discriminate. Qed.

Lemma C5_salt_is_start_xor_clock_word_witness :
  0 <= 5 < 2 ^ 64 /\
  anerd_salt lcg_rand 5 (Clock 2 1 2) = 1000004 /\
  0 <= anerd_salt lcg_rand 5 (Clock 2 1 2) < 2 ^ 64.
Proof.
  assert (H : 0 <= 5 < 2 ^ 64) by lia.
  split; [exact H|].
  destruct (C5_salt_is_start_xor_clock_word lcg_rand 5 (Clock 2 1 2) H)
    as (E & Hr & _).
  split; [rewrite E; reflexivity | exact Hr].
Defined.

(** ** Lists and the block *)

Lemma bind_run {A B} (m : M A) (k : A -> M B) p :
  bind m k p =
  (let r := m p in
   let r' := k (r.1.1) (state_of r) in
   (r'.1.1, state_of r', trace_of r ++ trace_of r')).
Proof.
  unfold bind, state_of, trace_of. destruct (m p) as [[a p1] t1]. cbn.
  destruct (k a p1) as [[b p2] t2]. reflexivity.
Qed.

Lemma bind_trace {A B} (m : M A) (k : A -> M B) p :
  trace_of (bind m k p) =
  trace_of (m p) ++ trace_of (k ((m p).1.1) (state_of (m p))).
Proof. rewrite bind_run. reflexivity. Qed.

Lemma bind_state {A B} (m : M A) (k : A -> M B) p :
  state_of (bind m k p) = state_of (k ((m p).1.1) (state_of (m p))).
Proof. rewrite bind_run. reflexivity. Qed.

(** [recvfrom] never hands over more than it was asked for. *)
Lemma received_length size dg :
  Z.of_nat (length (received size dg)) =
  Z.min (Z.max 0 size) (Z.of_nat (length (dg_payload dg))).
Proof. unfold received. rewrite length_take. lia. Qed.

Lemma received_fits size dg :
  Z.of_nat (length (dg_payload dg)) <= size -> received size dg = dg_payload dg.
Proof. intros H. unfold received. apply take_ge. lia. Qed.

(** The store of the terminator at [data[n]] leaves the [n] bytes before
    it alone, wherever it lands. *)
Lemma take_block_prefix (got rest : list Z) v :
  let d0 := got ++ rest in
  let n := Z.of_nat (length got) in
  take (Z.to_nat n) (if in_block n d0 then <[Z.to_nat n := v]> d0 else d0) = got.
Proof.
  intros d0 n. subst n. rewrite Nat2Z.id.
  destruct (in_block _ _).
  - rewrite take_insert_ge by lia. apply take_app_length.
  - apply take_app_length.
Qed.

Lemma fread_ok_spec n avail :
  fread_ok n avail = true <-> 0 < n <= Z.of_nat (length avail).
Proof. unfold fread_ok. rewrite andb_true_iff, Z.ltb_lt, Z.leb_le. tauto. Qed.

Lemma salt_bytes_length s : length (salt_bytes s) = 8%nat.
Proof. reflexivity. Qed.

(** The eight bytes are bytes, and they denote the salt they were taken
    from. *)
Lemma salt_bytes_decode s :
  0 <= s < 2 ^ 64 ->
  Forall (fun b => 0 <= b < 256) (salt_bytes s) /\
  le_decode (salt_bytes s) = s.
Proof.
  intros Hs. unfold le_decode, salt_bytes. cbn [map foldr].
  rewrite !Z.shiftr_div_pow2 by lia.
  change 255 with (Z.ones 8). rewrite !Z.land_ones by lia.
  split.
  - repeat constructor; apply Z.mod_pos_bound; lia.
  - change (8 * 0) with 0. change (8 * 1) with 8. change (8 * 2) with (8 + 8).
    change (8 * 3) with (8 + (8 + 8)). change (8 * 4) with (8 + (8 + (8 + 8))).
    change (8 * 5) with (8 + (8 + (8 + (8 + 8)))).
    change (8 * 6) with (8 + (8 + (8 + (8 + (8 + 8))))).
    change (8 * 7) with (8 + (8 + (8 + (8 + (8 + (8 + 8)))))).
    rewrite !Z.pow_add_r by lia. rewrite <- !Z.div_div by lia.
    change (2 ^ 8) with 256. change (2 ^ 0) with 1. rewrite Z.div_1_r.
    Z.to_euclidean_division_equations. lia.
Qed.

Lemma htons_port port : 0 <= port < 65536 -> htons port = port.
Proof. intros H. unfold htons. by apply Z.mod_small. Qed.

(** ** The loop bodies in closed form *)

Section Bodies.

Variable libc_rand : Z -> Z.

Lemma server_iteration_eq size a p :
  server_iteration libc_rand size a p =
  let got := received size (a_dgram a) in
  let n := Z.of_nat (length got) in
  let d0 := got ++ drop (length got) (data p) in
  let d1 := if in_block n d0 then <[Z.to_nat n := 0]> d0 else d0 in
  let s := anerd_salt libc_rand (salt p) (a_clock a) in
  let blk := take (Z.to_nat n) (a_draw a) in
  let d2 := blk ++ drop (length blk) d1 in
  let from := dg_from (a_dgram a) in
  (tt,
   Proc (sock p) d2
        (if in_block n d0 then stray p else stray p ++ [n])
        s
        (File [] (if a_write_ok a
                  then f_device (fp p) ++
                       (f_pending (fp p) ++ take (Z.to_nat n) d1) ++
                       salt_bytes s
                  else f_device (fp p)))
        from,
   [Syslog "Server recv bcast" n (anerd_crc d1 n) from;
    Fwrite (take (Z.to_nat n) d1); Fwrite (salt_bytes s); Fflush; Fread n] ++
   (if fread_ok n (a_draw a)
    then [Sendto (sock p) (take (Z.to_nat n) d2) from;
          Syslog "Server sent direct" n (anerd_crc d2 n) from]
    else [Perror "fread"])).
Proof.
  unfold server_iteration. run.
  destruct (fread_ok _ _); reflexivity.
Qed.

Lemma client_reply_eq size r p :
  client_reply libc_rand size r p =
  let got := received size (r_dgram r) in
  let n := Z.of_nat (length got) in
  let d0 := got ++ drop (length got) (data p) in
  let d1 := if in_block n d0 then <[Z.to_nat n := 0]> d0 else d0 in
  let s := anerd_salt libc_rand (salt p) (r_clock r) in
  let from := dg_from (r_dgram r) in
  (tt,
   Proc (sock p) d1
        (if in_block n d0 then stray p else stray p ++ [n])
        s
        (File [] (if r_write_ok r
                  then f_device (fp p) ++
                       (f_pending (fp p) ++ take (Z.to_nat size) d1) ++
                       salt_bytes s
                  else f_device (fp p)))
        from,
   [Syslog "Client recv direct" n (anerd_crc d1 n) from;
    Fwrite (take (Z.to_nat size) d1); Fwrite (salt_bytes s); Fflush]).
Proof. unfold client_reply. run. reflexivity. Qed.

Lemma client_round_eq size rd p :
  client_round libc_rand size rd p =
  let blk := take (Z.to_nat size) (rd_draw rd) in
  let d := blk ++ drop (length blk) (data p) in
  let p1 := Proc (sock p) d (stray p) (salt p) (fp p) (addr p) in
  let r := client_poll libc_rand size (rd_replies rd) p1 in
  (tt, state_of r,
   ([Fread size] ++
    (if fread_ok size (rd_draw rd)
     then [Syslog "Client sent bcast" size (anerd_crc d size) (addr p);
           Sendto (sock p) (take (Z.to_nat size) d) (addr p)]
     else [Perror "fread"])) ++ trace_of r).
Proof.
  unfold client_round. run.
  destruct (fread_ok _ _); run;
    destruct (client_poll _ _ _ _) as [[[] p'] t']; reflexivity.
Qed.

Lemma client_round_trace size rd p :
  trace_of (client_round libc_rand size rd p) =
  let blk := take (Z.to_nat size) (rd_draw rd) in
  let d := blk ++ drop (length blk) (data p) in
  let p1 := Proc (sock p) d (stray p) (salt p) (fp p) (addr p) in
  ([Fread size] ++
   (if fread_ok size (rd_draw rd)
    then [Syslog "Client sent bcast" size (anerd_crc d size) (addr p);
          Sendto (sock p) (take (Z.to_nat size) d) (addr p)]
    else [Perror "fread"])) ++
  trace_of (client_poll libc_rand size (rd_replies rd) p1).
Proof. rewrite client_round_eq. reflexivity. Qed.

End Bodies.

(** ** Start-up *)

(** Any of the four failures makes [anerd_server] report once and leave
    with [exit(1)]; no loop is entered. *)
Lemma server_setup_failure_exits size port s :
  su_socket s = -1 \/ su_fopen s = false \/ su_calloc s = false \/
  su_bind s = false ->
  exists tr msg,
    server_setup size port s = Exited 1 tr /\ reports tr = [Perror msg].
Proof.
  intros H. unfold server_setup.
  destruct (Z.eqb_spec (su_socket s) (-1)) as [|Hs]; [by eexists _, _|].
  destruct (su_fopen s); [|by eexists _, _].
  destruct (su_calloc s); [|by eexists _, _].
  destruct (su_bind s); [|by eexists _, _].
  intuition congruence.
Qed.

Lemma server_setup_enters size port s p tr :
  server_setup size port s = Looping p tr ->
  proc_ok (Z.max 0 size) p /\ sock p = su_socket s /\
  salt p = su_stack_salt s /\ reports tr = [].
Proof.
  unfold server_setup.
  destruct (_ =? _); [done|]. destruct (su_fopen s); [|done].
  destruct (su_calloc s); [|done]. destruct (su_bind s); [|done].
  intros [= <- <-]. unfold proc_ok. cbn. rewrite length_replicate.
  repeat split. lia.
Qed.

(** In [anerd_client] the failures of [calloc] and [fopen] do the same. *)
Lemma client_setup_failure_exits size port s :
  su_calloc s = false \/ su_fopen s = false ->
  exists tr, client_setup size port s = Exited 1 tr /\ reports tr <> [].
Proof.
  intros H. unfold client_setup.
  destruct (su_calloc s); [|by eexists].
  destruct (su_fopen s); [intuition congruence|].
  eexists. split; [reflexivity|].
  destruct (_ =? _), (su_setsockopt s); discriminate.
Qed.

(** The client enters its loop with a zero salt and the broadcast address,
    whatever [socket] and [setsockopt] returned. *)
Lemma client_setup_enters size port s p tr :
  client_setup size port s = Looping p tr ->
  proc_ok (Z.max 0 size) p /\ sock p = su_socket s /\ salt p = 0 /\
  addr p = SockAddr INADDR_BROADCAST (htons port).
Proof.
  unfold client_setup.
  destruct (su_calloc s); [|done]. destruct (su_fopen s); [|done].
  intros [= <- _]. unfold proc_ok. cbn. rewrite length_replicate.
  repeat split. lia.
Qed.

(** ** The responder *)

Section Responder.

Variable libc_rand : Z -> Z.

(** C1. A datagram of which [n > 0] bytes are received: when the draw that
    follows succeeds, the iteration makes one [sendto], of exactly [n]
    bytes (the block just drawn), on the server's socket, to the address
    the datagram came from, and reports nothing; when the draw fails it
    makes no [sendto] and its one report is [perror("fread")]. Either way
    the pool is read once. *)
Theorem C1_reply_is_n_bytes_or_nothing size a p :
  0 < Z.of_nat (length (received size (a_dgram a))) ->
  let n := Z.of_nat (length (received size (a_dgram a))) in
  let tr := trace_of (server_iteration libc_rand size a p) in
  (fread_ok n (a_draw a) = true ->
   exists payload,
     sends tr = [Sendto (sock p) payload (dg_from (a_dgram a))] /\
     Z.of_nat (length payload) = n /\
     payload = take (Z.to_nat n) (a_draw a) /\
     reports tr = []) /\
  (fread_ok n (a_draw a) = false ->
   sends tr = [] /\ reports tr = [Perror "fread"]) /\
  draws tr = [Fread n].
Proof.
  intros Hn n tr. subst tr. rewrite server_iteration_eq.
  cbv zeta. fold n. unfold trace_of. cbn [snd].
  split; [|split].
  - intros Hok. rewrite Hok.
    exists (take (Z.to_nat n) (a_draw a)).
    apply fread_ok_spec in Hok.
    assert (Hlen : length (take (Z.to_nat n) (a_draw a)) = Z.to_nat n)
      by (apply length_take_le; lia).
    repeat split.
    + cbn. rewrite take_app_length' by done. reflexivity.
    + lia.
  - intros Hok. rewrite Hok. split; reflexivity.
  - destruct (fread_ok _ _); reflexivity.
Qed.

(** The salt of a turn is [anerd_salt] of the salt before it; nothing else
    assigns it. *)
Lemma server_iteration_salt size a p :
  salt (state_of (server_iteration libc_rand size a p)) =
  anerd_salt libc_rand (salt p) (a_clock a).
Proof. rewrite server_iteration_eq. reflexivity. Qed.

Lemma server_iteration_sock size a p :
  sock (state_of (server_iteration libc_rand size a p)) = sock p.
Proof. rewrite server_iteration_eq. reflexivity. Qed.

(** The block keeps its size and the stream ends each turn flushed. *)
Lemma server_iteration_ok size a p :
  proc_ok size p -> proc_ok size (state_of (server_iteration libc_rand size a p)).
Proof.
  intros [Hd Hp]. rewrite server_iteration_eq. cbv zeta.
  unfold proc_ok, state_of. cbn [fst snd data fp f_pending].
  split; [|reflexivity].
  pose proof (received_length size (a_dgram a)) as Hr.
  set (got := received size (a_dgram a)) in *.
  assert (Hd0 : length (got ++ drop (length got) (data p)) = Z.to_nat size).
  { rewrite length_app, length_drop. lia. }
  rewrite length_app, length_drop, length_take.
  destruct (in_block _ _); rewrite ?length_insert, Hd0; lia.
Qed.

(** The terminator falls outside the block exactly when the datagram fills
    it (or is longer and was cut to fill it). *)
Lemma server_iteration_stray size a p :
  proc_ok size p ->
  stray (state_of (server_iteration libc_rand size a p)) =
  stray p ++
  (if size <=? Z.of_nat (length (dg_payload (a_dgram a))) then [Z.max 0 size] else []).
Proof.
  intros [Hd _]. rewrite server_iteration_eq. cbv zeta.
  unfold state_of. cbn [fst snd stray].
  pose proof (received_length size (a_dgram a)) as Hr.
  set (got := received size (a_dgram a)) in *.
  assert (Hd0 : length (got ++ drop (length got) (data p)) = Z.to_nat size).
  { rewrite length_app, length_drop. lia. }
  unfold in_block. rewrite Hd0.
  destruct (Z.leb_spec size (Z.of_nat (length (dg_payload (a_dgram a))))).
  - replace (_ && _) with false; [f_equal; f_equal; lia|].
    symmetry. apply andb_false_iff. right. apply Z.ltb_ge. lia.
  - replace (_ && _) with true; [by rewrite app_nil_r|].
    symmetry. apply andb_true_iff. split; [apply Z.leb_le|apply Z.ltb_lt]; lia.
Qed.

End Responder.

Section ResponderPool.

Variable libc_rand : Z -> Z.

(** C8. With the stream flushed on entry, a 64-bit salt and the device
    taking the write, a donation leaves on the device the given bytes, then
    eight bytes, and nothing unflushed. The eight bytes are those of the
    salt [anerd_salt] has just computed from the running one: each is a
    byte, and read least significant first they give that value back. In
    the server the given bytes are the received ones, and the three calls
    come before the draw; in the client they are the first [size] bytes of
    the block. A responder that receives 64 bytes appends 72. *)
Theorem C8_donate_appends_bytes_then_salt size a r p :
  f_pending (fp p) = [] ->
  a_write_ok a = true ->
  r_write_ok r = true ->
  0 <= salt p < 2 ^ 64 ->
  let ps := state_of (server_iteration libc_rand size a p) in
  let ts := trace_of (server_iteration libc_rand size a p) in
  let pc := state_of (client_reply libc_rand size r p) in
  let tc := trace_of (client_reply libc_rand size r p) in
  let got := received size (a_dgram a) in
  let given := take (Z.to_nat size) (data pc) in
  (f_device (fp ps) = f_device (fp p) ++ got ++ salt_bytes (salt ps) /\
   f_pending (fp ps) = [] /\
   pool_calls ts =
     [Fwrite got; Fwrite (salt_bytes (salt ps)); Fflush;
      Fread (Z.of_nat (length got))] /\
   salt ps = anerd_salt libc_rand (salt p) (a_clock a) /\
   Forall (fun b => 0 <= b < 256) (salt_bytes (salt ps)) /\
   le_decode (salt_bytes (salt ps)) = salt ps) /\
  (f_device (fp pc) = f_device (fp p) ++ given ++ salt_bytes (salt pc) /\
   f_pending (fp pc) = [] /\
   pool_calls tc = [Fwrite given; Fwrite (salt_bytes (salt pc)); Fflush] /\
   salt pc = anerd_salt libc_rand (salt p) (r_clock r) /\
   Forall (fun b => 0 <= b < 256) (salt_bytes (salt pc)) /\
   le_decode (salt_bytes (salt pc)) = salt pc) /\
  length (salt_bytes (salt ps)) = 8%nat /\
  (length got = 64%nat ->
   length (f_device (fp ps)) = (length (f_device (fp p)) + 72)%nat).
Proof.
  intros Hp Ha Hr Hs ps ts pc tc got given.
  pose proof (salt_bytes_decode _ (anerd_salt_range libc_rand _ (a_clock a) Hs))
    as [Hba Hda].
  pose proof (salt_bytes_decode _ (anerd_salt_range libc_rand _ (r_clock r) Hs))
    as [Hbr Hdr].
  subst ps ts pc tc given. rewrite server_iteration_eq, client_reply_eq.
  cbv zeta. fold got. unfold state_of, trace_of.
  cbn [fst snd fp f_device f_pending salt data].
  rewrite Ha, Hr, Hp, !app_nil_l.
  pose proof (take_block_prefix got (drop (length got) (data p)) 0) as Ht.
  cbv zeta in Ht. rewrite Ht.
  split; [|split; [|split]].
  - split; [reflexivity|]. split; [reflexivity|].
    split; [destruct (fread_ok _ _); reflexivity|].
    split; [reflexivity|]. split; [exact Hba | exact Hda].
  - split; [reflexivity|]. split; [reflexivity|]. split; [reflexivity|].
    split; [reflexivity|]. split; [exact Hbr | exact Hdr].
  - apply salt_bytes_length.
  - intros H64. rewrite !length_app, salt_bytes_length, H64. lia.
Qed.

End ResponderPool.

Lemma C1_reply_is_n_bytes_or_nothing_witness :
  0 < Z.of_nat (length (received 64 (a_dgram arrival64))) /\
  sends (trace_of (server_iteration lcg_rand 64 arrival64 locals64)) =
    [Sendto 3 pool64 peer_203_0_113_5] /\
  draws (trace_of (server_iteration lcg_rand 64 arrival64 locals64)) =
    [Fread 64].
Proof.
  assert (Hn : 0 < Z.of_nat (length (received 64 (a_dgram arrival64))))
    by (vm_compute; reflexivity).
  split; [exact Hn|].
  destruct (C1_reply_is_n_bytes_or_nothing lcg_rand 64 arrival64 locals64 Hn)
    as (Hok & _ & Hdr).
  destruct Hok as (payload & Hs & _ & Hp & _); [vm_compute; reflexivity|].
  split; [|exact Hdr].
  rewrite Hs, Hp. vm_compute. reflexivity.
Defined.

Lemma C8_donate_appends_bytes_then_salt_witness :
  f_pending (fp locals64) = [] /\
  a_write_ok arrival64 = true /\
  r_write_ok reply64 = true /\
  0 <= salt locals64 < 2 ^ 64 /\
  length (f_device (fp (state_of
            (server_iteration lcg_rand 64 arrival64 locals64)))) = 72%nat /\
  le_decode (salt_bytes (salt (state_of
            (server_iteration lcg_rand 64 arrival64 locals64)))) =
    anerd_salt lcg_rand 7 quarter_past.
Proof.
  assert (Hs : 0 <= salt locals64 < 2 ^ 64) by (cbn; lia).
  split; [reflexivity|]. split; [reflexivity|]. split; [reflexivity|].
  split; [exact Hs|].
  destruct (C8_donate_appends_bytes_then_salt lcg_rand 64 arrival64 reply64
              locals64 eq_refl eq_refl eq_refl Hs)
    as ((_ & _ & _ & Hsalt & _ & Hdec) & _ & _ & H72).
  split; [rewrite H72; reflexivity|].
  rewrite Hdec. exact Hsalt.
Defined.

(** ** Runs from start-up *)

Section Runs.

Variable libc_rand : Z -> Z.

(** C2 (code defect). With the default block of 64 bytes, a datagram of 64
    bytes is received whole, and the terminator [data[bytes_read] = 0] is
    then stored at offset 64, one byte past the block of 64 that [calloc]
    returned. The same happens in the client's reply loop. *)
Theorem C2_full_datagram_stores_past_block :
  let dg := Datagram block64 peer_203_0_113_5 in
  let server :=
    anerd_server libc_rand 64 26373 startup_ok
      [Arrival dg quarter_past true pool64 true] in
  let client :=
    anerd_client libc_rand 64 26373 60 startup_ok
      [Round pool64 true [Reply dg quarter_past true]] in
  length (received 64 dg) = 64%nat /\
  (length ∘ data) <$> outcome_proc server = Some 64%nat /\
  stray <$> outcome_proc server = Some [64] /\
  (length ∘ data) <$> outcome_proc client = Some 64%nat /\
  stray <$> outcome_proc client = Some [64].
Proof. vm_compute. repeat split. Qed.

(** C3 (code defect). Port 26373, two rounds, one reply from
    203.0.113.5:40000 in the first. The first block goes to the broadcast
    address; the second goes to 203.0.113.5:40000, because [recvfrom]
    stored the replier's address in the [server_addr] that [sendto] uses. *)
Theorem C3_second_round_sent_to_last_replier :
  let run :=
    anerd_client libc_rand 4 26373 60 startup_ok
      [Round [1; 2; 3; 4] true
         [Reply (Datagram [9; 9] peer_203_0_113_5) quarter_past true];
       Round [5; 6; 7; 8] true []] in
  sends (outcome_trace run) =
    [Sendto 3 [1; 2; 3; 4] (SockAddr INADDR_BROADCAST 26373);
     Sendto 3 [5; 6; 7; 8] peer_203_0_113_5] /\
  peer_203_0_113_5 <> SockAddr INADDR_BROADCAST 26373.
Proof. vm_compute. split; [reflexivity | discriminate]. Qed.

(** C4 (code defect). Block size 4, the block [1; 2; 3; 4] drawn and
    broadcast, then a reply of the two bytes [9; 9]. The client writes
    [size] bytes to the pool, not [bytes_read]: the two reply bytes, the
    terminator, and the byte 4 left over from the drawn block. *)
Theorem C4_short_reply_donates_whole_block :
  let run :=
    anerd_client libc_rand 4 26373 60 startup_ok
      [Round [1; 2; 3; 4] true
         [Reply (Datagram [9; 9] peer_203_0_113_5) quarter_past true]] in
  let s := anerd_salt libc_rand 0 quarter_past in
  received 4 (Datagram [9; 9] peer_203_0_113_5) = [9; 9] /\
  pool_calls (outcome_trace run) =
    [Fread 4; Fwrite [9; 9; 0; 4]; Fwrite (salt_bytes s); Fflush] /\
  (f_device ∘ fp) <$> outcome_proc run = Some ([9; 9; 0; 4] ++ salt_bytes s).
Proof. cbv -[anerd_salt salt_bytes]. repeat split. Qed.

(** C7 (code defect). [anerd_server] declares [salt] without an
    initialiser. When its stack slot holds 1, the loop is entered with
    salt 1 and the first mix XORs that value with the clock word: the
    re-seeding branch is not taken. [anerd_client], started on the same
    stack, has salt 0. *)
Theorem C7_server_salt_starts_as_found :
  let a := Arrival (Datagram block64 peer_203_0_113_5) quarter_past
             true pool64 true in
  salt <$> outcome_proc (anerd_server libc_rand 64 26373 startup_dirty_stack [])
    = Some 1 /\
  salt <$> outcome_proc (anerd_server libc_rand 64 26373 startup_dirty_stack [a])
    = Some (Z.lxor 1 (1000001 * 250000)) /\
  salt <$> outcome_proc (anerd_client libc_rand 64 26373 60 startup_dirty_stack [])
    = Some 0.
Proof. vm_compute. repeat split. Qed.

(** C9 (code defect). In [anerd_client] a failing [socket] is reported and
    nothing more: the function goes on with descriptor -1, enters its loop
    and calls [sendto] on -1. [anerd_server] leaves with [exit(1)] on the
    same failure. *)
Theorem C9_client_goes_on_without_socket :
  client_setup 64 26373 startup_no_socket =
    Looping (Proc (-1) (replicate 64 0) [] 0 (File [] [])
                  (SockAddr INADDR_BROADCAST 26373))
            [Perror "socket"; Perror "setsockopt (SO_BROADCAST)"] /\
  sends (outcome_trace
           (anerd_client libc_rand 64 26373 60 startup_no_socket
              [Round pool64 false []])) =
    [Sendto (-1) pool64 (SockAddr INADDR_BROADCAST 26373)] /\
  server_setup 64 26373 startup_no_socket = Exited 1 [Perror "Socket"].
Proof. vm_compute. repeat split. Qed.

End Runs.

(** ** Failures inside the loops *)

Section Failures.

Variable libc_rand : Z -> Z.

Lemma server_iteration_draws size a p :
  draws (trace_of (server_iteration libc_rand size a p)) =
  [Fread (Z.of_nat (length (received size (a_dgram a))))].
Proof.
  rewrite server_iteration_eq. cbv zeta. unfold trace_of. cbn [snd].
  destruct (fread_ok _ _); reflexivity.
Qed.

(** In the reply loop too the salt is assigned by [anerd_salt] alone. *)
Lemma client_reply_salt size r p :
  salt (state_of (client_reply libc_rand size r p)) =
  anerd_salt libc_rand (salt p) (r_clock r).
Proof. rewrite client_reply_eq. reflexivity. Qed.

(** The first mix of a loop entered with a zero salt takes the re-seeding
    branch. *)
Lemma client_first_reply_reseeds size r p :
  salt p = 0 ->
  salt (state_of (client_reply libc_rand size r p)) =
  Z.lxor (wrap64 (libc_rand (wrap32 (time_null (r_clock r)))))
         (this_usec (r_clock r)).
Proof. intros H. rewrite client_reply_salt, H. reflexivity. Qed.

Lemma client_reply_ok size r p :
  proc_ok size p -> proc_ok size (state_of (client_reply libc_rand size r p)).
Proof.
  intros [Hd Hp]. rewrite client_reply_eq. cbv zeta.
  unfold proc_ok, state_of. cbn [fst snd data fp f_pending].
  split; [|reflexivity].
  pose proof (received_length size (r_dgram r)) as Hr.
  set (got := received size (r_dgram r)) in *.
  assert (Hd0 : length (got ++ drop (length got) (data p)) = Z.to_nat size).
  { rewrite length_app, length_drop. lia. }
  destruct (in_block _ _); rewrite ?length_insert, Hd0; lia.
Qed.

Lemma client_poll_salt size replies : forall p,
  salt (state_of (client_poll libc_rand size replies p)) =
  foldl (fun s r => anerd_salt libc_rand s (r_clock r)) (salt p) replies.
Proof.
  induction replies as [|r rest IH]; intros p; [reflexivity|].
  cbn [client_poll foldl]. rewrite bind_state, IH, client_reply_salt.
  reflexivity.
Qed.

(** [recvfrom] leaves the replier's address in the [server_addr] that the
    next broadcast is sent to. *)
Lemma client_poll_addr size replies : forall p,
  addr (state_of (client_poll libc_rand size replies p)) =
  match last replies with
  | Some r => dg_from (r_dgram r)
  | None => addr p
  end.
Proof.
  induction replies as [|r rest IH]; intros p; [reflexivity|].
  cbn [client_poll]. rewrite bind_state, IH.
  destruct rest as [|r' rest'].
  - rewrite client_reply_eq. reflexivity.
  - rewrite last_cons_cons.
    destruct (last (r' :: rest')) eqn:E; [reflexivity|].
    by apply last_None in E.
Qed.

Lemma server_loop_draws size arrivals : forall p,
  length (draws (trace_of (server_loop libc_rand size arrivals p))) =
  length arrivals.
Proof.
  induction arrivals as [|a rest IH]; intros p; [reflexivity|].
  cbn [server_loop]. rewrite bind_trace. unfold draws in *.
  rewrite filter_app, length_app, IH.
  pose proof (server_iteration_draws size a p) as Hd. unfold draws in Hd.
  rewrite Hd. reflexivity.
Qed.

(** What a turn of the reply loop emits does not depend on the stream, nor
    on whether the device takes the write. *)
Lemma client_reply_same size r p q :
  same_but_fp p q ->
  trace_of (client_reply libc_rand size r p) =
    trace_of (client_reply libc_rand size (accepted r) q) /\
  same_but_fp (state_of (client_reply libc_rand size r p))
              (state_of (client_reply libc_rand size (accepted r) q)).
Proof.
  intros (Hs & Hd & Ht & Hl & Ha). rewrite !client_reply_eq. cbv zeta.
  unfold trace_of, state_of, same_but_fp, accepted.
  cbn [fst snd sock data stray salt addr r_dgram r_clock].
  rewrite Hs, Hd, Ht, Hl. done.
Qed.

Lemma client_poll_same size replies : forall p q,
  same_but_fp p q ->
  trace_of (client_poll libc_rand size replies p) =
    trace_of (client_poll libc_rand size (map accepted replies) q) /\
  same_but_fp (state_of (client_poll libc_rand size replies p))
              (state_of (client_poll libc_rand size (map accepted replies) q)).
Proof.
  induction replies as [|r rest IH]; intros p q Hpq; [by split|].
  cbn [client_poll map]. rewrite !bind_trace, !bind_state.
  destruct (client_reply_same size r p q Hpq) as [Ht Hs].
  destruct (IH _ _ Hs) as [Ht' Hs'].
  split; [by rewrite Ht, Ht' | exact Hs'].
Qed.

(** The reply loop reports nothing, sends nothing and draws nothing. *)
Lemma client_poll_quiet size replies : forall p,
  reports (trace_of (client_poll libc_rand size replies p)) = [] /\
  sends (trace_of (client_poll libc_rand size replies p)) = [] /\
  draws (trace_of (client_poll libc_rand size replies p)) = [].
Proof.
  induction replies as [|r rest IH]; intros p; [done|].
  cbn [client_poll]. rewrite bind_trace.
  unfold reports, sends, draws in *. rewrite !filter_app.
  destruct (IH (state_of (client_reply libc_rand size r p))) as (-> & -> & ->).
  rewrite client_reply_eq. done.
Qed.

Lemma client_round_draws size rd p :
  draws (trace_of (client_round libc_rand size rd p)) = [Fread size].
Proof.
  rewrite client_round_trace. cbv zeta.
  unfold draws. rewrite filter_app.
  match goal with |- context [client_poll ?l ?s ?rs ?q] =>
    destruct (client_poll_quiet s rs q) as (_ & _ & Hq) end.
  unfold draws in Hq. rewrite Hq.
  destruct (fread_ok _ _); reflexivity.
Qed.

Lemma client_loop_draws size rounds : forall p,
  length (draws (trace_of (client_loop libc_rand size rounds p))) =
  length rounds.
Proof.
  induction rounds as [|rd rest IH]; intros p; [reflexivity|].
  cbn [client_loop]. rewrite bind_trace. unfold draws in *.
  rewrite filter_app, length_app, IH.
  pose proof (client_round_draws size rd p) as Hd. unfold draws in Hd.
  rewrite Hd. reflexivity.
Qed.

(** C10 (as amended). In a turn of either loop the only failure that is
    reported is that of the draw: the turn then reports [perror("fread")]
    and sends nothing, and otherwise reports nothing and sends once. The
    pool is read once in a turn, whatever failed. A device that refuses the
    donation, or a [sendto] that fails, changes nothing in what the turn
    emits. Every turn the loop is given is carried out: the run has as many
    draws as turns. *)
Theorem C10_only_failed_draws_are_reported size p :
  (forall dg c w d s,
     let tr := trace_of (server_iteration libc_rand size (Arrival dg c w d s) p) in
     let ok := fread_ok (Z.of_nat (length (received size dg))) d in
     reports tr = (if ok then [] else [Perror "fread"]) /\
     length (sends tr) = (if ok then 1 else 0)%nat /\
     draws tr = [Fread (Z.of_nat (length (received size dg)))] /\
     tr = trace_of (server_iteration libc_rand size (Arrival dg c true d true) p)) /\
  (forall d s replies,
     let tr := trace_of (client_round libc_rand size (Round d s replies) p) in
     let ok := fread_ok size d in
     reports tr = (if ok then [] else [Perror "fread"]) /\
     length (sends tr) = (if ok then 1 else 0)%nat /\
     draws tr = [Fread size] /\
     tr = trace_of (client_round libc_rand size
                      (Round d true (map accepted replies)) p)) /\
  (forall arrivals,
     length (draws (trace_of (server_loop libc_rand size arrivals p))) =
     length arrivals) /\
  (forall rounds,
     length (draws (trace_of (client_loop libc_rand size rounds p))) =
     length rounds).
Proof.
  split; [|split; [|split]].
  - intros dg c w d s tr ok. subst tr ok.
    split; [|split; [|split]].
    + rewrite server_iteration_eq. cbv zeta. unfold trace_of.
      cbn [snd a_dgram a_draw]. destruct (fread_ok _ _); reflexivity.
    + rewrite server_iteration_eq. cbv zeta. unfold trace_of.
      cbn [snd a_dgram a_draw]. destruct (fread_ok _ _); reflexivity.
    + apply (server_iteration_draws size (Arrival dg c w d s) p).
    + rewrite !server_iteration_eq. reflexivity.
  - intros d s replies tr ok. subst tr ok.
    pose proof (client_round_draws size (Round d s replies) p) as Hdr.
    rewrite !client_round_trace in *. cbv zeta in *.
    cbn [rd_draw rd_replies rd_send_ok] in *.
    set (q := Proc _ _ _ _ _ _) in *.
    destruct (client_poll_quiet size replies q) as (Hr & Hs & _).
    destruct (client_poll_same size replies q q) as [Ht _]; [done|].
    unfold reports, sends in *.
    rewrite !filter_app, Hr, Hs, <- Ht.
    split; [|split; [|split]]; [| |exact Hdr|reflexivity];
      destruct (fread_ok _ _); reflexivity.
  - intros arrivals. apply server_loop_draws.
  - intros rounds. apply client_loop_draws.
Qed.

End Failures.

(** C10 (as stated, refuted). The device refuses the donation of a 64-byte
    datagram; the draw and the reply succeed. Nothing reaches the pool, the
    turn reports nothing, and it is not abandoned: the reply is sent as if
    the donation had been made. *)
Lemma C10_failed_donate_goes_unreported :
  let a := Arrival (Datagram block64 peer_203_0_113_5) quarter_past
             false pool64 true in
  let p := Proc 3 (replicate 64 0) [] 7 (File [] []) (SockAddr 0 0) in
  let r := server_iteration lcg_rand 64 a p in
  a_write_ok a = false /\
  f_device (fp (state_of r)) = [] /\
  reports (trace_of r) = [] /\
  sends (trace_of r) = [Sendto 3 pool64 peer_203_0_113_5].
Proof. vm_compute. repeat split. Qed.

(** ** The checksum *)

Example anerd_crc_order : anerd_crc [1; 2; 3] 3 = anerd_crc [3; 2; 1] 3.
Proof. reflexivity. Qed.

Example anerd_crc_value : anerd_crc [1; 2; 3] 3 <> anerd_crc [1; 2; 4] 3.
Proof. discriminate. Qed.

Example salt_bytes_258 : salt_bytes 258 = [2; 1; 0; 0; 0; 0; 0; 0].
Proof. reflexivity. Qed.

(** * Further properties *)

(** ** The salt generator, continued *)

Section SaltMore.

Variable libc_rand : Z -> Z.

(** X1. From the same previous salt, and within the same second of
    [time(NULL)], two calls return the same value exactly when the
    microsecond fields of their clock readings are equal: readings that
    differ in that field always give different salts. *)
Theorem X1_salt_separates_usec_fields s c1 c2 :
  clock_valid c1 -> clock_valid c2 -> time_null c1 = time_null c2 ->
  anerd_salt libc_rand s c1 = anerd_salt libc_rand s c2 <->
  tv_usec c1 = tv_usec c2.
Proof.
  intros H1 H2 Ht. unfold anerd_salt. rewrite Ht.
  rewrite !this_usec_valid by done. split.
  - intros E. apply lxor_cancel_l in E. lia.
  - by intros ->.
Qed.

(** X2. A running salt comes back to the zero sentinel exactly when it
    equals the clock word it is mixed with; the next call then re-seeds. *)
Theorem X2_salt_returns_to_zero s c :
  s <> 0 ->
  anerd_salt libc_rand s c = 0 <-> s = this_usec c.
Proof.
  intros Hs. rewrite anerd_salt_nonzero by done. apply Z.lxor_eq_0_iff.
Qed.

End SaltMore.

Lemma X1_salt_separates_usec_fields_witness :
  clock_valid (Clock 10 500 10) /\ clock_valid (Clock 10 501 10) /\
  anerd_salt lcg_rand 0 (Clock 10 500 10) <>
  anerd_salt lcg_rand 0 (Clock 10 501 10).
Proof.
  assert (H1 : clock_valid (Clock 10 500 10)) by (unfold clock_valid; cbn; lia).
  assert (H2 : clock_valid (Clock 10 501 10)) by (unfold clock_valid; cbn; lia).
  split; [exact H1|]. split; [exact H2|].
  intros E.
  apply (X1_salt_separates_usec_fields lcg_rand 0 _ _ H1 H2 eq_refl) in E.
  discriminate E.
Defined.

Lemma X2_salt_returns_to_zero_witness :
  500000500 <> 0 /\ anerd_salt lcg_rand 500000500 (Clock 10 500 10) = 0.
Proof.
  assert (H : 500000500 <> 0) by discriminate.
  split; [exact H|].
  apply (X2_salt_returns_to_zero lcg_rand 500000500 (Clock 10 500 10) H).
  reflexivity.
Defined.

(** ** The checksum *)

Lemma wrap_int_small x : - 2 ^ 31 <= x < 2 ^ 31 -> wrap_int x = x.
Proof. intros H. unfold wrap_int. rewrite Z.mod_small; lia. Qed.

Lemma wrap_int_add_l a b : wrap_int (wrap_int a + b) = wrap_int (a + b).
Proof.
  unfold wrap_int. f_equal.
  replace ((a + 2 ^ 31) mod 2 ^ 32 - 2 ^ 31 + b + 2 ^ 31)
    with ((a + 2 ^ 31) mod 2 ^ 32 + b) by lia.
  rewrite Z.add_mod_idemp_l by lia. f_equal. lia.
Qed.

Lemma wrap_int_add_r a b : wrap_int (a + wrap_int b) = wrap_int (a + b).
Proof. rewrite Z.add_comm, wrap_int_add_l. f_equal. lia. Qed.

Lemma crc_loop_sum l : forall acc,
  foldl (fun crc b => wrap_int (crc + to_uchar b)) (wrap_int acc) l =
  wrap_int (acc + byte_sum l).
Proof.
  induction l as [|b l IH]; intros acc; cbn [foldl byte_sum].
  - f_equal. lia.
  - rewrite wrap_int_add_l, IH. f_equal. lia.
Qed.

Lemma anerd_crc_sum data len :
  anerd_crc data len = wrap_int (byte_sum (take (Z.to_nat len) data)).
Proof.
  unfold anerd_crc. change 0 with (wrap_int 0) at 1.
  rewrite crc_loop_sum. reflexivity.
Qed.

Lemma byte_sum_range l : 0 <= byte_sum l <= 255 * Z.of_nat (length l).
Proof.
  induction l as [|b l IH]; cbn [byte_sum length]; [lia|].
  unfold to_uchar.
  pose proof (Z.mod_pos_bound b 256). lia.
Qed.

Lemma byte_sum_app a b : byte_sum (a ++ b) = byte_sum a + byte_sum b.
Proof.
  induction a as [|x a IH]; cbn [byte_sum app]; [reflexivity|]. lia.
Qed.

Lemma byte_sum_perm a b : a ≡ₚ b -> byte_sum a = byte_sum b.
Proof.
  induction 1 as [|x a b _ IH|x y a|a b c _ IH1 _ IH2];
    cbn [byte_sum]; [reflexivity|lia|lia|congruence].
Qed.

(** X3. The checksum of a whole block does not depend on the order of its
    bytes. *)
Theorem X3_crc_ignores_order (a b : list Z) :
  a ≡ₚ b ->
  anerd_crc a (Z.of_nat (length a)) = anerd_crc b (Z.of_nat (length b)).
Proof.
  intros H. rewrite !anerd_crc_sum, !Nat2Z.id, !take_ge by lia.
  by rewrite (byte_sum_perm a b).
Qed.

(** X4. For a length within the block and below 2^31 / 255 the [int]
    accumulator never wraps: the checksum is the plain sum of the first
    [len] bytes taken as unsigned characters, between 0 and 255 * [len]. *)
Theorem X4_crc_is_plain_sum data len :
  0 <= len <= Z.of_nat (length data) -> 255 * len < 2 ^ 31 ->
  anerd_crc data len = byte_sum (take (Z.to_nat len) data) /\
  0 <= anerd_crc data len <= 255 * len.
Proof.
  intros Hl Hs. rewrite anerd_crc_sum.
  pose proof (byte_sum_range (take (Z.to_nat len) data)) as Hr.
  rewrite length_take in Hr.
  rewrite wrap_int_small by lia. split; [reflexivity | lia].
Qed.

(** X5. The checksum of two blocks laid end to end is the [int] sum of
    their checksums, and the checksum over the first block's length reads
    nothing of the second. *)
Theorem X5_crc_of_concatenation (a b : list Z) :
  anerd_crc (a ++ b) (Z.of_nat (length a) + Z.of_nat (length b)) =
  wrap_int (anerd_crc a (Z.of_nat (length a)) +
            anerd_crc b (Z.of_nat (length b))) /\
  anerd_crc (a ++ b) (Z.of_nat (length a)) = anerd_crc a (Z.of_nat (length a)).
Proof.
  rewrite !anerd_crc_sum, !Nat2Z.id. split.
  - rewrite <- Nat2Z.inj_add, Nat2Z.id, <- length_app, !take_ge by lia.
    rewrite byte_sum_app, wrap_int_add_l, wrap_int_add_r. reflexivity.
  - rewrite take_app_length, take_ge by lia. reflexivity.
Qed.

(** ** The salt on the wire *)

(** X6. The eight bytes written for a 64-bit salt are each below 256 and
    give the salt back when read least significant byte first. *)
Theorem X6_salt_bytes_round_trip s :
  0 <= s < 2 ^ 64 ->
  Forall (fun b => 0 <= b < 256) (salt_bytes s) /\
  foldr (fun b acc => b + 256 * acc) 0 (salt_bytes s) = s.
Proof.
  intros Hs. unfold salt_bytes. cbn [map foldr].
  rewrite !Z.shiftr_div_pow2 by lia.
  change 255 with (Z.ones 8). rewrite !Z.land_ones by lia.
  split.
  - repeat constructor; apply Z.mod_pos_bound; lia.
  - change (8 * 0) with 0. change (8 * 1) with 8. change (8 * 2) with (8 + 8).
    change (8 * 3) with (8 + (8 + 8)). change (8 * 4) with (8 + (8 + (8 + 8))).
    change (8 * 5) with (8 + (8 + (8 + (8 + 8)))).
    change (8 * 6) with (8 + (8 + (8 + (8 + (8 + 8))))).
    change (8 * 7) with (8 + (8 + (8 + (8 + (8 + (8 + 8)))))).
    rewrite !Z.pow_add_r by lia. rewrite <- !Z.div_div by lia.
    change (2 ^ 8) with 256. change (2 ^ 0) with 1. rewrite Z.div_1_r.
    Z.to_euclidean_division_equations. lia.
Qed.

Lemma X3_crc_ignores_order_witness :
  [1; 2; 3] ≡ₚ [3; 2; 1] /\ anerd_crc [1; 2; 3] 3 = anerd_crc [3; 2; 1] 3.
Proof.
  assert (H : [1; 2; 3] ≡ₚ [3; 2; 1]).
  { etrans; [apply perm_swap|]. etrans; [apply perm_skip, perm_swap|].
    apply perm_swap. }
  split; [exact H|]. exact (X3_crc_ignores_order _ _ H).
Defined.

Lemma X4_crc_is_plain_sum_witness :
  0 <= 64 <= Z.of_nat (length block64) /\ 255 * 64 < 2 ^ 31 /\
  anerd_crc block64 64 = 2016.
Proof.
  assert (H1 : 0 <= 64 <= Z.of_nat (length block64)) by (cbn; lia).
  assert (H2 : 255 * 64 < 2 ^ 31) by lia.
  split; [exact H1|]. split; [exact H2|].
  destruct (X4_crc_is_plain_sum block64 64 H1 H2) as [E _].
  rewrite E. reflexivity.
Defined.

Lemma X6_salt_bytes_round_trip_witness :
  0 <= 258 < 2 ^ 64 /\
  foldr (fun b acc => b + 256 * acc) 0 (salt_bytes 258) = 258.
Proof.
  assert (H : 0 <= 258 < 2 ^ 64) by lia.
  split; [exact H|]. exact (proj2 (X6_salt_bytes_round_trip 258 H)).
Defined.

(** ** The responder, continued *)

Lemma anerd_crc_take data n :
  anerd_crc (take (Z.to_nat n) data) n = anerd_crc data n.
Proof. unfold anerd_crc. by rewrite take_take, Nat.min_id. Qed.

Section ResponderMore.

Variable libc_rand : Z -> Z.

(** X7. Whatever datagrams are waiting, a failing [socket], [fopen],
    [calloc] or [bind] makes [anerd_server] leave with [exit(1)] after one
    [perror]: nothing is sent and the pool is not touched. *)
Theorem X7_server_failed_setup_does_nothing size port s arrivals :
  su_socket s = -1 \/ su_fopen s = false \/ su_calloc s = false \/
  su_bind s = false ->
  exists tr msg,
    anerd_server libc_rand size port s arrivals = Exited 1 tr /\
    reports tr = [Perror msg] /\ sends tr = [] /\ pool_calls tr = [].
Proof.
  intros H. unfold anerd_server, server_setup.
  destruct (Z.eqb_spec (su_socket s) (-1)) as [|Hs]; [by eexists _, _|].
  destruct (su_fopen s); [|by eexists _, _].
  destruct (su_calloc s); [|by eexists _, _].
  destruct (su_bind s); [|by eexists _, _].
  intuition congruence.
Qed.

Lemma server_iteration_trace size a p :
  trace_of (server_iteration libc_rand size a p) =
  let got := received size (a_dgram a) in
  let n := Z.of_nat (length got) in
  let s := anerd_salt libc_rand (salt p) (a_clock a) in
  let blk := take (Z.to_nat n) (a_draw a) in
  let from := dg_from (a_dgram a) in
  [Syslog "Server recv bcast" n (anerd_crc got n) from;
   Fwrite got; Fwrite (salt_bytes s); Fflush; Fread n] ++
  (if fread_ok n (a_draw a)
   then [Sendto (sock p) blk from;
         Syslog "Server sent direct" n (anerd_crc blk n) from]
   else [Perror "fread"]).
Proof.
  rewrite server_iteration_eq. cbv zeta. unfold trace_of. cbn [snd].
  set (got := received size (a_dgram a)).
  set (n := Z.of_nat (length got)).
  set (d0 := got ++ drop (length got) (data p)).
  set (d1 := if in_block n d0 then <[Z.to_nat n:=0]> d0 else d0).
  assert (Hd1 : take (Z.to_nat n) d1 = got)
    by apply (take_block_prefix got (drop (length got) (data p)) 0).
  rewrite <- (anerd_crc_take d1 n), Hd1.
  destruct (fread_ok n (a_draw a)) eqn:Hok; [|reflexivity].
  apply fread_ok_spec in Hok.
  set (blk := take (Z.to_nat n) (a_draw a)).
  assert (Hb : take (Z.to_nat n) (blk ++ drop (length blk) d1) = blk).
  { apply take_app_length'. subst blk. rewrite length_take. lia. }
  rewrite <- (anerd_crc_take (blk ++ _) n), Hb. reflexivity.
Qed.

(** X10. What a turn of the server emits, written from its inputs: the
    bytes donated are the bytes received, the reply is the block the device
    yielded, and each log line carries the checksum of exactly the bytes it
    counts. Nothing of the block's earlier content appears. *)
Theorem X10_server_turn_events size a p :
  trace_of (server_iteration libc_rand size a p) =
  let got := received size (a_dgram a) in
  let n := Z.of_nat (length got) in
  let s := anerd_salt libc_rand (salt p) (a_clock a) in
  let blk := take (Z.to_nat n) (a_draw a) in
  let from := dg_from (a_dgram a) in
  [Syslog "Server recv bcast" n (anerd_crc got n) from;
   Fwrite got; Fwrite (salt_bytes s); Fflush; Fread n] ++
  (if fread_ok n (a_draw a)
   then [Sendto (sock p) blk from;
         Syslog "Server sent direct" n (anerd_crc blk n) from]
   else [Perror "fread"]).
Proof. rewrite server_iteration_trace. reflexivity. Qed.

Lemma server_loop_sock size arrivals : forall p,
  sock (state_of (server_loop libc_rand size arrivals p)) = sock p.
Proof.
  induction arrivals as [|a rest IH]; intros p; [reflexivity|].
  cbn [server_loop]. by rewrite bind_state, IH, server_iteration_sock.
Qed.

(** X11. What the server emits over any number of turns depends on its
    socket and its salt alone: not on what the block, the stream or
    [client_addr] held on entry. *)
Theorem X11_server_trace_ignores_block_and_address size arrivals : forall p q,
  sock p = sock q -> salt p = salt q ->
  trace_of (server_loop libc_rand size arrivals p) =
  trace_of (server_loop libc_rand size arrivals q).
Proof.
  induction arrivals as [|a rest IH]; intros p q Hs Hl; [reflexivity|].
  cbn [server_loop]. rewrite !bind_trace, !server_iteration_trace.
  cbv zeta. rewrite Hs, Hl. f_equal.
  apply IH.
  - by rewrite !server_iteration_sock.
  - by rewrite !server_iteration_salt, Hl.
Qed.

(** X12. Over any number of turns the server sends one reply for each
    datagram whose draw succeeded, in the order of arrival, on its socket,
    to that datagram's sender, carrying the block drawn for it. *)
Theorem X12_server_replies_in_order size arrivals : forall p,
  sends (trace_of (server_loop libc_rand size arrivals p)) =
  flat_map
    (fun a =>
       let n := Z.of_nat (length (received size (a_dgram a))) in
       if fread_ok n (a_draw a)
       then [Sendto (sock p) (take (Z.to_nat n) (a_draw a))
                    (dg_from (a_dgram a))]
       else [])
    arrivals.
Proof.
  induction arrivals as [|a rest IH]; intros p; [reflexivity|].
  cbn [server_loop flat_map]. rewrite bind_trace. unfold sends in *.
  rewrite filter_app, IH, server_iteration_sock, server_iteration_trace.
  cbv zeta. f_equal. destruct (fread_ok _ _); reflexivity.
Qed.

Lemma server_loop_ok size arrivals : forall p,
  proc_ok size p ->
  proc_ok size (state_of (server_loop libc_rand size arrivals p)).
Proof.
  induction arrivals as [|a rest IH]; intros p Hp; [exact Hp|].
  cbn [server_loop]. rewrite bind_state. by apply IH, server_iteration_ok.
Qed.

(** X13. With the stream flushed on entry and a device that takes every
    write, the device gains for each datagram the bytes received and eight
    bytes of salt: over the turns, the bytes received plus eight per
    datagram. *)
Theorem X13_server_pool_growth size arrivals : forall p,
  f_pending (fp p) = [] ->
  Forall (fun a => a_write_ok a = true) arrivals ->
  length (f_device (fp (state_of (server_loop libc_rand size arrivals p)))) =
  (length (f_device (fp p)) +
   sum_list (map (fun a => length (received size (a_dgram a)) + 8)%nat
                 arrivals))%nat.
Proof.
  induction arrivals as [|a rest IH]; intros p Hp Hw; [cbn; lia|].
  inversion Hw as [|? ? Ha Hrest]; subst.
  cbn [server_loop map sum_list]. rewrite bind_state, IH; [| |exact Hrest].
  - rewrite server_iteration_eq. cbv zeta. unfold state_of.
    cbn [fst snd fp f_device]. rewrite Hp, Ha, app_nil_l.
    pose proof (take_block_prefix (received size (a_dgram a))
                  (drop (length (received size (a_dgram a))) (data p)) 0) as Ht.
    cbv zeta in Ht. rewrite Ht.
    unfold id. rewrite !length_app, salt_bytes_length. lia.
  - rewrite server_iteration_eq. reflexivity.
Qed.

Lemma server_loop_salt size arrivals : forall p,
  salt (state_of (server_loop libc_rand size arrivals p)) =
  foldl (fun s a => anerd_salt libc_rand s (a_clock a)) (salt p) arrivals.
Proof.
  induction arrivals as [|a rest IH]; intros p; [reflexivity|].
  cbn [server_loop foldl]. by rewrite bind_state, IH, server_iteration_salt.
Qed.

End ResponderMore.

(** ** The initiator *)

Section InitiatorMore.

Variable libc_rand : Z -> Z.

Lemma client_reply_sock size r p :
  sock (state_of (client_reply libc_rand size r p)) = sock p.
Proof. rewrite client_reply_eq. reflexivity. Qed.

Lemma client_poll_sock size replies : forall p,
  sock (state_of (client_poll libc_rand size replies p)) = sock p.
Proof.
  induction replies as [|r rest IH]; intros p; [reflexivity|].
  cbn [client_poll]. by rewrite bind_state, IH, client_reply_sock.
Qed.

Lemma client_poll_ok size replies : forall p,
  proc_ok size p ->
  proc_ok size (state_of (client_poll libc_rand size replies p)).
Proof.
  induction replies as [|r rest IH]; intros p Hp; [exact Hp|].
  cbn [client_poll]. rewrite bind_state. by apply IH, client_reply_ok.
Qed.

Lemma client_round_state size rd p :
  state_of (client_round libc_rand size rd p) =
  let blk := take (Z.to_nat size) (rd_draw rd) in
  state_of (client_poll libc_rand size (rd_replies rd)
              (Proc (sock p) (blk ++ drop (length blk) (data p)) (stray p)
                    (salt p) (fp p) (addr p))).
Proof. rewrite client_round_eq. reflexivity. Qed.

Lemma client_round_ok size rd p :
  proc_ok size p -> proc_ok size (state_of (client_round libc_rand size rd p)).
Proof.
  intros [Hd Hp]. rewrite client_round_state. cbv zeta.
  apply client_poll_ok. split; [|exact Hp]. cbn [data].
  rewrite length_app, length_drop, length_take. lia.
Qed.

Lemma client_loop_ok size rounds : forall p,
  proc_ok size p ->
  proc_ok size (state_of (client_loop libc_rand size rounds p)).
Proof.
  induction rounds as [|rd rest IH]; intros p Hp; [exact Hp|].
  cbn [client_loop]. rewrite bind_state. by apply IH, client_round_ok.
Qed.

(** X8. In both loops the block keeps its [size] bytes and every turn
    ends with the stream flushed, over any number of turns. *)
Theorem X8_block_and_stream_invariant size arrivals rounds p :
  proc_ok size p ->
  proc_ok size (state_of (server_loop libc_rand size arrivals p)) /\
  proc_ok size (state_of (client_loop libc_rand size rounds p)).
Proof.
  intros Hp. split; [by apply server_loop_ok | by apply client_loop_ok].
Qed.

Lemma client_reply_stray size r p :
  proc_ok size p ->
  stray (state_of (client_reply libc_rand size r p)) =
  stray p ++
  (if size <=? Z.of_nat (length (dg_payload (r_dgram r)))
   then [Z.max 0 size] else []).
Proof.
  intros [Hd _]. rewrite client_reply_eq. cbv zeta.
  unfold state_of. cbn [fst snd stray].
  pose proof (received_length size (r_dgram r)) as Hr.
  set (got := received size (r_dgram r)) in *.
  assert (Hd0 : length (got ++ drop (length got) (data p)) = Z.to_nat size).
  { rewrite length_app, length_drop. lia. }
  unfold in_block. rewrite Hd0.
  destruct (Z.leb_spec size (Z.of_nat (length (dg_payload (r_dgram r))))).
  - replace (_ && _) with false; [f_equal; f_equal; lia|].
    symmetry. apply andb_false_iff. right. apply Z.ltb_ge. lia.
  - replace (_ && _) with true; [by rewrite app_nil_r|].
    symmetry. apply andb_true_iff. split; [apply Z.leb_le|apply Z.ltb_lt]; lia.
Qed.

(** X9. In a turn of either loop the one store that can leave the block is
    the terminator [data[bytes_read] = 0], and it does so exactly when the
    datagram has [size] bytes or more; every other byte written lands
    inside the block. *)
Theorem X9_only_full_datagrams_overrun size a r p :
  proc_ok size p ->
  stray (state_of (server_iteration libc_rand size a p)) =
    stray p ++
    (if size <=? Z.of_nat (length (dg_payload (a_dgram a)))
     then [Z.max 0 size] else []) /\
  stray (state_of (client_reply libc_rand size r p)) =
    stray p ++
    (if size <=? Z.of_nat (length (dg_payload (r_dgram r)))
     then [Z.max 0 size] else []).
Proof.
  intros Hp. split;
    [by apply server_iteration_stray | by apply client_reply_stray].
Qed.

Lemma client_loop_salt size rounds : forall p,
  salt (state_of (client_loop libc_rand size rounds p)) =
  foldl (fun s r => anerd_salt libc_rand s (r_clock r)) (salt p)
        (concat (map rd_replies rounds)).
Proof.
  induction rounds as [|rd rest IH]; intros p; [reflexivity|].
  cbn [client_loop map concat]. rewrite bind_state, IH, foldl_app.
  rewrite client_round_state. cbv zeta. by rewrite client_poll_salt.
Qed.

(** X14. The salt is assigned by [anerd_salt] and by nothing else: once
    for each datagram the server receives, once for each reply the client
    receives. Draws, broadcasts and failed turns leave it as it is. *)
Theorem X14_salt_mixed_once_per_datagram size arrivals rounds p :
  salt (state_of (server_loop libc_rand size arrivals p)) =
    foldl (fun s a => anerd_salt libc_rand s (a_clock a)) (salt p) arrivals /\
  salt (state_of (client_loop libc_rand size rounds p)) =
    foldl (fun s r => anerd_salt libc_rand s (r_clock r)) (salt p)
          (concat (map rd_replies rounds)).
Proof. split; [apply server_loop_salt | apply client_loop_salt]. Qed.

(** X15. With an interval of zero or less the client role does not run:
    after start-up it closes its socket and returns 0 (or has left through
    [exit(1)] at start-up); it never reads or writes the pool and never
    sends. *)
Theorem X15_client_disabled_by_interval size port interval s rounds :
  interval <= 0 ->
  let o := anerd_client libc_rand size port interval s rounds in
  (exists tr, o = if su_calloc s && su_fopen s
                  then Returned 0 (tr ++ [Close (su_socket s)])
                  else Exited 1 tr) /\
  sends (outcome_trace o) = [] /\
  pool_calls (outcome_trace o) = [].
Proof.
  intros Hi o. subst o. unfold anerd_client, client_setup.
  destruct (su_calloc s); [|by split; [eexists|]].
  destruct (su_fopen s); cbn [negb andb].
  - destruct (Z.ltb_spec 0 interval); [lia|].
    split; [by eexists|].
    destruct (_ =? _), (su_setsockopt s); done.
  - split; [by eexists|].
    destruct (_ =? _), (su_setsockopt s); done.
Qed.

(** X16. A failing [calloc] or [fopen] makes [anerd_client] leave with
    [exit(1)] after reporting, whatever the interval: nothing is sent and
    the pool is not touched. When it is [fopen] that failed, the socket is
    closed last. *)
Theorem X16_client_failed_setup_does_nothing size port interval s rounds :
  su_calloc s = false \/ su_fopen s = false ->
  exists tr,
    anerd_client libc_rand size port interval s rounds = Exited 1 tr /\
    reports tr <> [] /\ sends tr = [] /\ pool_calls tr = [] /\
    (su_calloc s = true -> last tr = Some (Close (su_socket s))).
Proof.
  intros H. unfold anerd_client, client_setup.
  destruct (su_calloc s); [|by eexists].
  destruct (su_fopen s); [intuition congruence|]. cbn [negb].
  eexists. split; [reflexivity|].
  destruct (_ =? _), (su_setsockopt s); done.
Qed.

Lemma client_round_sends size rd p :
  sends (trace_of (client_round libc_rand size rd p)) =
  if fread_ok size (rd_draw rd)
  then [Sendto (sock p) (take (Z.to_nat size) (rd_draw rd)) (addr p)]
  else [].
Proof.
  rewrite client_round_trace. cbv zeta. unfold sends. rewrite filter_app.
  match goal with |- context [client_poll ?l ?s ?rs ?q] =>
    destruct (client_poll_quiet l s rs q) as (_ & Hq & _) end.
  unfold sends in Hq. rewrite Hq, app_nil_r.
  destruct (fread_ok _ _) eqn:Hok; [|reflexivity].
  apply fread_ok_spec in Hok. cbn.
  rewrite take_app_length'; [reflexivity|]. rewrite length_take. lia.
Qed.

(** X19. A round sends at most one datagram: the block just drawn, to the
    address [server_addr] holds on entry. On leaving the round
    [server_addr] holds the address of the last replier, if anyone
    replied, and is unchanged otherwise. *)
Theorem X19_round_sends_to_address_on_entry size rd p :
  sends (trace_of (client_round libc_rand size rd p)) =
    (if fread_ok size (rd_draw rd)
     then [Sendto (sock p) (take (Z.to_nat size) (rd_draw rd)) (addr p)]
     else []) /\
  addr (state_of (client_round libc_rand size rd p)) =
    match last (rd_replies rd) with
    | Some r => dg_from (r_dgram r)
    | None => addr p
    end.
Proof.
  split; [apply client_round_sends|].
  rewrite client_round_state. cbv zeta. by rewrite client_poll_addr.
Qed.

Lemma client_loop_sends_unanswered size dest rounds : forall p,
  Forall (fun rd => rd_replies rd = []) rounds ->
  addr p = dest ->
  sends (trace_of (client_loop libc_rand size rounds p)) =
  flat_map
    (fun rd =>
       if fread_ok size (rd_draw rd)
       then [Sendto (sock p) (take (Z.to_nat size) (rd_draw rd)) dest]
       else [])
    rounds.
Proof.
  induction rounds as [|rd rest IH]; intros p Hq Ha; [reflexivity|].
  inversion Hq as [|? ? Hrd Hrest]; subst.
  cbn [client_loop flat_map]. rewrite bind_trace. unfold sends in *.
  rewrite filter_app.
  pose proof (client_round_sends size rd p) as Hs. unfold sends in Hs.
  rewrite Hs. f_equal.
  rewrite IH; [|exact Hrest|].
  - rewrite client_round_state. cbv zeta. by rewrite client_poll_sock.
  - rewrite client_round_state. cbv zeta.
    by rewrite client_poll_addr, Hrd.
Qed.

(** X17. As long as no reply has arrived, every round whose draw succeeds
    sends the [size] bytes drawn to the broadcast address, on the port that
    [htons] makes of the configured one (the configured port itself when
    it fits 16 bits), on the descriptor [socket] returned; a round whose
    draw fails sends nothing. *)
Theorem X17_unanswered_rounds_broadcast size port interval s rounds :
  su_calloc s = true -> su_fopen s = true -> 0 < interval ->
  Forall (fun rd => rd_replies rd = []) rounds ->
  sends (outcome_trace (anerd_client libc_rand size port interval s rounds)) =
    flat_map
      (fun rd =>
         if fread_ok size (rd_draw rd)
         then [Sendto (su_socket s) (take (Z.to_nat size) (rd_draw rd))
                      (SockAddr INADDR_BROADCAST (htons port))]
         else [])
      rounds /\
  (0 <= port < 65536 -> htons port = port).
Proof.
  intros Hc Hf Hi Hq. split; [|apply htons_port].
  unfold anerd_client, client_setup.
  rewrite Hc, Hf. cbn [negb].
  destruct (Z.ltb_spec 0 interval); [|lia].
  cbn [outcome_trace]. unfold sends. rewrite !filter_app.
  pose proof (client_loop_sends_unanswered size
                (SockAddr INADDR_BROADCAST (htons port)) rounds) as Hl.
  unfold sends in Hl. rewrite Hl by done. cbn [sock].
  by destruct (_ =? _), (su_setsockopt s).
Qed.

(** X18. What a reply adds to the pool when the device takes the write:
    always [size] bytes and the eight bytes of the new salt. The [size]
    bytes are the reply's bytes, then the terminator, then whatever the
    block held beyond it before the reply arrived. *)
Theorem X18_client_donation_shape size r p :
  proc_ok size p -> r_write_ok r = true ->
  let pc := state_of (client_reply libc_rand size r p) in
  let got := received size (r_dgram r) in
  let given :=
    take (Z.to_nat size) (got ++ 0 :: drop (S (length got)) (data p)) in
  f_device (fp pc) = f_device (fp p) ++ given ++ salt_bytes (salt pc) /\
  length given = Z.to_nat size /\
  take (length got) given = got.
Proof.
  intros [Hd Hp] Hw pc got given.
  pose proof (received_length size (r_dgram r)) as Hr. fold got in Hr.
  assert (Hg : given =
    take (Z.to_nat size)
      (if in_block (Z.of_nat (length got)) (got ++ drop (length got) (data p))
       then <[Z.to_nat (Z.of_nat (length got)) := 0]>
              (got ++ drop (length got) (data p))
       else got ++ drop (length got) (data p))).
  { subst given. rewrite Nat2Z.id.
    destruct (in_block _ _) eqn:E; unfold in_block in E;
      rewrite length_app, length_drop in E.
    - apply andb_true_iff in E as [_ E]. apply Z.ltb_lt in E.
      rewrite insert_app_r_alt, Nat.sub_diag by lia.
      destruct (drop (length got) (data p)) as [|x tl] eqn:Ed.
      { apply (f_equal length) in Ed. rewrite length_drop in Ed.
        cbn in Ed. lia. }
      cbn [insert list_insert]. do 3 f_equal.
      replace (S (length got)) with (length got + 1)%nat by lia.
      by rewrite <- drop_drop, Ed.
    - apply andb_false_iff in E as [E|E];
        [apply Z.leb_gt in E; lia | apply Z.ltb_ge in E].
      rewrite !take_app_ge by lia.
      replace (Z.to_nat size - length got)%nat with 0%nat by lia.
      by rewrite !take_0. }
  split; [|split].
  - subst pc. rewrite client_reply_eq. cbv zeta. fold got. unfold state_of.
    cbn [fst snd fp f_device salt]. by rewrite Hw, Hp, app_nil_l, Hg.
  - subst given. rewrite length_take, length_app. cbn [length].
    rewrite length_drop. lia.
  - rewrite Hg.
    pose proof (take_block_prefix got (drop (length got) (data p)) 0) as Ht.
    cbv zeta in Ht. rewrite Nat2Z.id in Ht at 1.
    rewrite take_take. replace (length got `min` Z.to_nat size)%nat
      with (length got) by lia.
    exact Ht.
Qed.

End InitiatorMore.

(** ** The arguments of [main] *)

Section MainFacts.

Variable atoi : string -> Z.
Variable libc_rand : Z -> Z.

Lemma parse_args_plain a rest c :
  any_flag a = false ->
  parse_args atoi (a :: rest) c = parse_args atoi rest c.
Proof.
  unfold any_flag. intros H.
  apply orb_false_iff in H as [H Hs]. apply orb_false_iff in H as [H Hp].
  apply orb_false_iff in H as [Hd Hi].
  cbn [parse_args]. by rewrite Hd, Hi, Hp, Hs.
Qed.

(** X20. Arguments that do not start with [-d], [-i], [-p] or [-s] are
    passed over: with no flag on the command line the loops run with the
    defaults, 64 bytes, port 26373, every 60 seconds, the child of the
    fork as the client and the other process as the server. *)
Theorem X20_plain_arguments_keep_defaults argv f s arrivals rounds :
  Forall (fun a => any_flag a = false) argv ->
  (forall c, parse_args atoi argv c = Some c) /\
  main atoi libc_rand argv f s arrivals rounds =
    Some (if f =? 0
          then anerd_client libc_rand 64 26373 60 s rounds
          else anerd_server libc_rand 64 26373 s arrivals).
Proof.
  intros Hp.
  assert (H : forall c, parse_args atoi argv c = Some c).
  { induction Hp as [|a rest Ha _ IH]; intros c; [reflexivity|].
    by rewrite parse_args_plain. }
  split; [exact H|]. unfold main. by rewrite H.
Qed.

Lemma parse_args_app_len n : forall argv1 argv2 c,
  (length argv1 <= n)%nat -> complete argv1 = true ->
  exists c1,
    parse_args atoi argv1 c = Some c1 /\
    parse_args atoi (argv1 ++ argv2) c = parse_args atoi argv2 c1.
Proof.
  induction n as [|n IH]; intros argv1 argv2 c Hn Hc.
  { destruct argv1; [by eexists | cbn in Hn; lia]. }
  destruct argv1 as [|a rest]; [by eexists|].
  cbn [complete] in Hc. destruct (any_flag a) eqn:Ha.
  - destruct rest as [|v rest']; [done|].
    cbn [length] in Hn. unfold any_flag in Ha.
    change (parse_args atoi ((a :: v :: rest') ++ argv2) c)
      with (parse_args atoi (a :: v :: (rest' ++ argv2)) c).
    cbn [parse_args].
    destruct (is_flag "-d" a); [apply IH; [lia | done]|].
    destruct (is_flag "-i" a); [apply IH; [lia | done]|].
    destruct (is_flag "-p" a); [apply IH; [lia | done]|].
    destruct (is_flag "-s" a); [apply IH; [lia | done]|].
    discriminate Ha.
  - change (parse_args atoi ((a :: rest) ++ argv2) c)
      with (parse_args atoi (a :: (rest ++ argv2)) c).
    rewrite !parse_args_plain by done.
    apply IH; [cbn [length] in Hn; lia | done].
Qed.

Lemma parse_args_app argv1 argv2 c :
  complete argv1 = true ->
  exists c1,
    parse_args atoi argv1 c = Some c1 /\
    parse_args atoi (argv1 ++ argv2) c = parse_args atoi argv2 c1.
Proof. by apply (parse_args_app_len (length argv1)). Qed.

(** X21. When the argument loop does not stop on a flag that awaits its
    value, reading a command line is reading its first part and then the
    rest from what the first part set: flags may be given in any number,
    each is read with the value that follows it, and nothing is lost at
    the seam. *)
Theorem X21_arguments_read_in_sequence argv1 argv2 c :
  complete argv1 = true ->
  exists c1,
    parse_args atoi argv1 c = Some c1 /\
    parse_args atoi (argv1 ++ argv2) c = parse_args atoi argv2 c1.
Proof. intros H. by apply parse_args_app. Qed.

(** X22. A flag given again overrides what came before: after any
    complete command line, a final [-s v], [-p v], [-i v] or [-d v] sets
    that one value ([atoi] of [v], or [v] itself for the device) and keeps
    the other three. *)
Theorem X22_last_flag_wins argv v c :
  complete argv = true ->
  exists c1,
    parse_args atoi argv c = Some c1 /\
    parse_args atoi (argv ++ ["-s"; v]) c =
      Some (Config (cf_device c1) (atoi v) (cf_port c1) (cf_interval c1)) /\
    parse_args atoi (argv ++ ["-p"; v]) c =
      Some (Config (cf_device c1) (cf_size c1) (atoi v) (cf_interval c1)) /\
    parse_args atoi (argv ++ ["-i"; v]) c =
      Some (Config (cf_device c1) (cf_size c1) (cf_port c1) (atoi v)) /\
    parse_args atoi (argv ++ ["-d"; v]) c =
      Some (Config (Some v) (cf_size c1) (cf_port c1) (cf_interval c1)).
Proof.
  intros H.
  destruct (parse_args_app argv [] c H) as (c1 & Hc1 & _).
  exists c1. split; [exact Hc1|].
  repeat split.
  - destruct (parse_args_app argv ["-s"; v] c H) as (c2 & Hc2 & ->).
    rewrite Hc1 in Hc2. by injection Hc2 as <-.
  - destruct (parse_args_app argv ["-p"; v] c H) as (c2 & Hc2 & ->).
    rewrite Hc1 in Hc2. by injection Hc2 as <-.
  - destruct (parse_args_app argv ["-i"; v] c H) as (c2 & Hc2 & ->).
    rewrite Hc1 in Hc2. by injection Hc2 as <-.
  - destruct (parse_args_app argv ["-d"; v] c H) as (c2 & Hc2 & ->).
    rewrite Hc1 in Hc2. by injection Hc2 as <-.
Qed.

(** X23. A flag as the last argument takes [argv[argc]], the null pointer,
    as its value: [-d] leaves [device] null, and [-i], [-p] and [-s] call
    [atoi] on the null pointer, after which [main] has no defined
    outcome. Nothing rejects the command line. *)
Theorem X23_trailing_flag_reads_past_arguments argv a c f s arrivals rounds :
  complete argv = true -> any_flag a = true ->
  exists c1,
    parse_args atoi argv c = Some c1 /\
    parse_args atoi (argv ++ [a]) c =
      (if is_flag "-d" a
       then Some (Config None (cf_size c1) (cf_port c1) (cf_interval c1))
       else None) /\
    (is_flag "-d" a = false ->
     main atoi libc_rand (argv ++ [a]) f s arrivals rounds = None).
Proof.
  intros H Ha.
  assert (Hp : forall c, exists c1,
    parse_args atoi argv c = Some c1 /\
    parse_args atoi (argv ++ [a]) c =
      (if is_flag "-d" a
       then Some (Config None (cf_size c1) (cf_port c1) (cf_interval c1))
       else None)).
  { intros c'. destruct (parse_args_app argv [a] c' H) as (c1 & Hc1 & ->).
    exists c1. split; [exact Hc1|].
    unfold any_flag in Ha. cbn [parse_args].
    destruct (is_flag "-d" a); [reflexivity|].
    destruct (is_flag "-i" a); [reflexivity|].
    destruct (is_flag "-p" a); [reflexivity|].
    destruct (is_flag "-s" a); [reflexivity|discriminate Ha]. }
  destruct (Hp c) as (c1 & Hc1 & Hc2).
  exists c1. split; [exact Hc1|]. split; [exact Hc2|].
  intros Hd. unfold main.
  destruct (Hp default_config) as (c2 & _ & ->). by rewrite Hd.
Qed.

End MainFacts.

(** ** Instances *)

Lemma X7_server_failed_setup_does_nothing_witness :
  su_fopen (Startup 3 false true true true 0 (SockAddr 0 0)) = false /\
  exists tr msg,
    anerd_server lcg_rand 64 26373
      (Startup 3 false true true true 0 (SockAddr 0 0)) [arrival64] =
      Exited 1 tr /\
    reports tr = [Perror msg] /\ sends tr = [] /\ pool_calls tr = [].
Proof.
  split; [reflexivity|].
  apply (X7_server_failed_setup_does_nothing lcg_rand 64 26373
           (Startup 3 false true true true 0 (SockAddr 0 0)) [arrival64]).
  right. left. reflexivity.
Defined.

Lemma X8_block_and_stream_invariant_witness :
  proc_ok 64 locals64 /\
  proc_ok 64 (state_of (server_loop lcg_rand 64 [arrival64; arrival64] locals64)) /\
  proc_ok 64 (state_of (client_loop lcg_rand 64
                          [Round pool64 true [reply64]] locals64)).
Proof.
  assert (H : proc_ok 64 locals64) by (split; reflexivity).
  split; [exact H|].
  exact (X8_block_and_stream_invariant lcg_rand 64 [arrival64; arrival64]
           [Round pool64 true [reply64]] locals64 H).
Defined.

Lemma X9_only_full_datagrams_overrun_witness :
  proc_ok 64 locals64 /\
  stray (state_of (server_iteration lcg_rand 64 arrival64 locals64)) = [64] /\
  stray (state_of (client_reply lcg_rand 64
                     (Reply (Datagram [9; 9] peer_203_0_113_5) quarter_past true)
                     locals64)) = [].
Proof.
  assert (H : proc_ok 64 locals64) by (split; reflexivity).
  split; [exact H|].
  exact (X9_only_full_datagrams_overrun lcg_rand 64 arrival64
           (Reply (Datagram [9; 9] peer_203_0_113_5) quarter_past true)
           locals64 H).
Defined.

Lemma X11_server_trace_ignores_block_and_address_witness :
  sock locals64 = sock (Proc 3 pool64 [5] 7 (File [1] [2]) peer_203_0_113_5) /\
  salt locals64 = salt (Proc 3 pool64 [5] 7 (File [1] [2]) peer_203_0_113_5) /\
  trace_of (server_loop lcg_rand 64 [arrival64; arrival64] locals64) =
  trace_of (server_loop lcg_rand 64 [arrival64; arrival64]
              (Proc 3 pool64 [5] 7 (File [1] [2]) peer_203_0_113_5)).
Proof.
  split; [reflexivity|]. split; [reflexivity|].
  exact (X11_server_trace_ignores_block_and_address lcg_rand 64
           [arrival64; arrival64] locals64
           (Proc 3 pool64 [5] 7 (File [1] [2]) peer_203_0_113_5)
           eq_refl eq_refl).
Defined.

Lemma X13_server_pool_growth_witness :
  f_pending (fp locals64) = [] /\
  Forall (fun a => a_write_ok a = true) [arrival64; arrival64] /\
  length (f_device (fp (state_of
     (server_loop lcg_rand 64 [arrival64; arrival64] locals64)))) = 144%nat.
Proof.
  assert (Hw : Forall (fun a => a_write_ok a = true) [arrival64; arrival64])
    by (repeat constructor).
  split; [reflexivity|]. split; [exact Hw|].
  rewrite (X13_server_pool_growth lcg_rand 64 _ locals64 eq_refl Hw).
  reflexivity.
Defined.

Lemma X15_client_disabled_by_interval_witness :
  0 <= 0 /\
  sends (outcome_trace
           (anerd_client lcg_rand 64 26373 0 startup_ok
              [Round pool64 true [reply64]])) = [] /\
  pool_calls (outcome_trace
                (anerd_client lcg_rand 64 26373 0 startup_ok
                   [Round pool64 true [reply64]])) = [].
Proof.
  assert (H : 0 <= 0) by lia.
  split; [exact H|].
  exact (proj2 (X15_client_disabled_by_interval lcg_rand 64 26373 0
                  startup_ok [Round pool64 true [reply64]] H)).
Defined.

Lemma X16_client_failed_setup_does_nothing_witness :
  su_fopen (Startup 3 false true true true 0 (SockAddr 0 0)) = false /\
  exists tr,
    anerd_client lcg_rand 64 26373 60
      (Startup 3 false true true true 0 (SockAddr 0 0))
      [Round pool64 true []] = Exited 1 tr /\
    last tr = Some (Close 3).
Proof.
  split; [reflexivity|].
  destruct (X16_client_failed_setup_does_nothing lcg_rand 64 26373 60
              (Startup 3 false true true true 0 (SockAddr 0 0))
              [Round pool64 true []] (or_intror eq_refl))
    as (tr & E & _ & _ & _ & Hl).
  exists tr. split; [exact E | exact (Hl eq_refl)].
Defined.

Lemma X17_unanswered_rounds_broadcast_witness :
  su_calloc startup_ok = true /\ su_fopen startup_ok = true /\ 0 < 60 /\
  Forall (fun rd => rd_replies rd = [])
         [Round pool64 true []; Round [] true []; Round block64 false []] /\
  sends (outcome_trace
           (anerd_client lcg_rand 64 26373 60 startup_ok
              [Round pool64 true []; Round [] true [];
               Round block64 false []])) =
    [Sendto 3 pool64 (SockAddr INADDR_BROADCAST 26373);
     Sendto 3 block64 (SockAddr INADDR_BROADCAST 26373)].
Proof.
  assert (Hi : 0 < 60) by lia.
  assert (Hq : Forall (fun rd => rd_replies rd = [])
                 [Round pool64 true []; Round [] true [];
                  Round block64 false []])
    by (repeat constructor).
  split; [reflexivity|]. split; [reflexivity|]. split; [exact Hi|].
  split; [exact Hq|].
  rewrite (proj1 (X17_unanswered_rounds_broadcast lcg_rand 64 26373 60
                    startup_ok _ eq_refl eq_refl Hi Hq)).
  reflexivity.
Defined.

Lemma X18_client_donation_shape_witness :
  proc_ok 4 (Proc 3 [1; 2; 3; 4] [] 7 (File [] []) (SockAddr 0 0)) /\
  r_write_ok (Reply (Datagram [9; 9] peer_203_0_113_5) quarter_past true)
    = true /\
  take 4 (f_device (fp (state_of
     (client_reply lcg_rand 4
        (Reply (Datagram [9; 9] peer_203_0_113_5) quarter_past true)
        (Proc 3 [1; 2; 3; 4] [] 7 (File [] []) (SockAddr 0 0))))))
  = [9; 9; 0; 4].
Proof.
  assert (H : proc_ok 4 (Proc 3 [1; 2; 3; 4] [] 7 (File [] []) (SockAddr 0 0)))
    by (split; reflexivity).
  split; [exact H|]. split; [reflexivity|].
  destruct (X18_client_donation_shape lcg_rand 4
              (Reply (Datagram [9; 9] peer_203_0_113_5) quarter_past true)
              _ H eq_refl) as (E & _ & _).
  rewrite E. reflexivity.
Defined.

Lemma X20_plain_arguments_keep_defaults_witness :
  Forall (fun a => any_flag a = false) ["anerd"; "-x"; "8"] /\
  parse_args dec_atoi ["anerd"; "-x"; "8"] default_config =
    Some default_config.
Proof.
  assert (H : Forall (fun a => any_flag a = false) ["anerd"; "-x"; "8"])
    by (repeat constructor).
  split; [exact H|].
  destruct (X20_plain_arguments_keep_defaults dec_atoi lcg_rand
              ["anerd"; "-x"; "8"] 0 startup_ok [] [] H) as [Hp _].
  exact (Hp default_config).
Defined.

Lemma X21_arguments_read_in_sequence_witness :
  complete ["anerd"; "-s"; "32"] = true /\
  parse_args dec_atoi (["anerd"; "-s"; "32"] ++ ["-p"; "9000"]) default_config =
    Some (Config (Some DEFAULT_DEVICE) 32 9000 60).
Proof.
  split; [reflexivity|].
  destruct (X21_arguments_read_in_sequence dec_atoi ["anerd"; "-s"; "32"]
              ["-p"; "9000"] default_config eq_refl) as (c1 & E1 & E2).
  rewrite E2. injection E1 as <-. reflexivity.
Defined.

Lemma X22_last_flag_wins_witness :
  complete ["anerd"; "-s"; "32"] = true /\
  parse_args dec_atoi (["anerd"; "-s"; "32"] ++ ["-s"; "16"]) default_config =
    Some (Config (Some DEFAULT_DEVICE) 16 26373 60).
Proof.
  split; [reflexivity|].
  destruct (X22_last_flag_wins dec_atoi ["anerd"; "-s"; "32"] "16"
              default_config eq_refl) as (c1 & E1 & E2 & _).
  rewrite E2. injection E1 as <-. reflexivity.
Defined.

Lemma X23_trailing_flag_reads_past_arguments_witness :
  complete ["anerd"; "-s"; "32"] = true /\ any_flag "-p" = true /\
  main dec_atoi lcg_rand (["anerd"; "-s"; "32"] ++ ["-p"]) 0 startup_ok [] []
    = None.
Proof.
  split; [reflexivity|]. split; [reflexivity|].
  destruct (X23_trailing_flag_reads_past_arguments dec_atoi lcg_rand
              ["anerd"; "-s"; "32"] "-p" default_config 0 startup_ok [] []
              eq_refl eq_refl) as (c1 & _ & _ & Hm).
  exact (Hm eq_refl).
Defined.
